(** * The color picker of fast-components: color-model synchronisation

    A shallow embedding of [ColorPicker] (color-picker.ts): the handlers of
    the free-text field, of the seven numeric fields and of the three mouse
    zones, with the text value, the RGBA colour, the HSV colour and the UI
    snapshot they keep in step.

    JavaScript numbers are IEEE 754 binary64 values, which is what Rocq's
    primitive floats are, so arithmetic, comparisons, NaN and signed zeros
    are those of the source.  Handlers are computations in a state monad
    over the element's fields in which a dereference of [null] throws. *)

From Stdlib Require Import Floats ZArith List Bool Ascii String Lia.
Import ListNotations.

Local Open Scope string_scope.

(** ** JavaScript numbers and built-ins *)

Module JS.

Definition number := float.

(** The strict and loose comparisons of two numbers. *)
Definition lt (x y : number) : bool := PrimFloat.ltb x y.
Definition gt (x y : number) : bool := PrimFloat.ltb y x.
Definition le (x y : number) : bool := PrimFloat.leb x y.
Definition ge (x y : number) : bool := PrimFloat.leb y x.
Definition neq (x y : number) : bool := negb (PrimFloat.eqb x y).

Definition isNaN (x : number) : bool := negb (PrimFloat.eqb x x).

Definition neg_zero : number := Eval cbv in PrimFloat.opp PrimFloat.zero.

(** The number nearest to a mathematical integer (round to nearest, ties
    to even); an integer below 2^53 in magnitude is represented exactly. *)
Definition of_Z (z : Z) : number :=
  SF2Prim (binary_normalize prec emax z 0 false).

(** [Math.round]: the nearest integer, a tie going towards +infinity.
    NaN, the infinities and both zeros are returned as they are, and a
    negative argument that rounds to zero gives -0. *)
Definition Math_round (x : number) : number :=
  match Prim2SF x with
  | S754_finite sg m e =>
      if (0 <=? e)%Z then x
      else
        let d := Z.pow 2 (- e) in
        let n := if sg then (- Z.pos m)%Z else Z.pos m in
        let q := ((2 * n + d) / (2 * d))%Z in
        if (q =? 0)%Z then (if sg then neg_zero else PrimFloat.zero)
        else of_Z q
  | _ => x
  end.

(** White space as [String.prototype.trim], [\s] and [parseInt] see it,
    on the one-byte characters of a Rocq string: TAB, LF, VT, FF, CR,
    SPACE. *)
Definition isWhiteSpace (c : ascii) : bool :=
  let n := nat_of_ascii c in
  ((9 <=? n) && (n <=? 13) || (n =? 32))%nat.

Fixpoint trimStart (s : string) : string :=
  match s with
  | String c rest => if isWhiteSpace c then trimStart rest else s
  | EmptyString => s
  end.

(** The value of a digit in the given radix, if it is one. *)
Definition digitValue (radix : Z) (c : ascii) : option Z :=
  let n := Z.of_nat (nat_of_ascii c) in
  let d :=
    if ((48 <=? n) && (n <=? 57))%Z then Some (n - 48)%Z
    else if ((97 <=? n) && (n <=? 122))%Z then Some (n - 87)%Z
    else if ((65 <=? n) && (n <=? 90))%Z then Some (n - 55)%Z
    else None in
  match d with
  | Some v => if (v <? radix)%Z then Some v else None
  | None => None
  end.

(** The longest prefix of digits, read as an integer; [None] when the
    prefix is empty. *)
Fixpoint digits (radix : Z) (acc : option Z) (s : string) : option Z :=
  match s with
  | String c rest =>
      match digitValue radix c with
      | Some v =>
          digits radix
            (Some (match acc with Some a => a * radix + v | None => v end)%Z)
            rest
      | None => acc
      end
  | EmptyString => acc
  end.

(** [parseInt(s)] with the radix left out: leading white space and one
    sign are skipped, a [0x] or [0X] prefix selects base 16, and the
    longest run of digits is read; no digit gives NaN, and a zero after
    a minus sign is -0. *)
Definition parseInt (s : string) : number :=
  let s1 := trimStart s in
  let (negative, s2) :=
    match s1 with
    | String "-" rest => (true, rest)
    | String "+" rest => (false, rest)
    | _ => (false, s1)
    end in
  let (radix, s3) :=
    match s2 with
    | String "0" (String "x" rest) => (16%Z, rest)
    | String "0" (String "X" rest) => (16%Z, rest)
    | _ => (10%Z, s2)
    end in
  match digits radix None s3 with
  | None => PrimFloat.nan
  | Some z =>
      if (z =? 0)%Z then (if negative then neg_zero else PrimFloat.zero)
      else of_Z (if negative then - z else z)
  end.

(** [Number.isNaN] does not coerce its argument: on a string, which is
    what the handler passes, it is false whatever the string holds. *)
Definition Number_isNaN_string (_ : string) : bool := false.

End JS.

(** ** The data model *)

(** Modelled from the spec: the class [ColorRGBA64] of fast-colors is
    absent; the spec has it hold four numbers, the channels r, g, b and a.
    [new] is its constructor: the alpha argument may be left out, and an
    alpha that is left out or is NaN is stored as 1, the library never
    holding a colour whose alpha is not a number. *)
Module ColorRGBA64.
Record t := mk { r : JS.number; g : JS.number; b : JS.number; a : JS.number }.

Definition new (red green blue : JS.number) (alpha : option JS.number) : t :=
  mk red green blue
    match alpha with
    | Some x => if JS.isNaN x then 1%float else x
    | None => 1%float
    end.
End ColorRGBA64.

(** Modelled from the spec: the class [ColorHSV] of fast-colors is absent;
    the spec has it hold three numbers, the channels h, s and v, which its
    constructor, [mk], stores as they are given. *)
Module ColorHSV.
Record t := mk { h : JS.number; s : JS.number; v : JS.number }.
End ColorHSV.

(** What [getBoundingClientRect] returns for the element under the mouse. *)
Module DOMRect.
Record t := mk
  { left : JS.number; top : JS.number;
    width : JS.number; height : JS.number }.
End DOMRect.

(** [class ColorPickerUI]: all the values the template displays. *)
Module ColorPickerUI.
Record t := mk
  { RGBColor : ColorRGBA64.t;
    HSVColor : ColorHSV.t;
    HueCSSColor : string;
    HuePosition : JS.number;
    SatValTopPos : JS.number;
    SatValLeftPos : JS.number;
    AlphaPos : JS.number }.
End ColorPickerUI.

(** The callbacks the element hands to [DOM.queueUpdate]: the one that
    calls [this.focus()]. *)
Inductive callback : Set := callFocus.

(** Modelled from the spec: the form-associated base class
    (color-picker.form-associated) is absent; of it the element uses the
    external string value, a single slot that is read and written, and the
    proxy input element.  The fields of [class ColorPicker] follow; a
    reference that can be [null] or unset is an [option], the mouse target
    is the bounding box the element reports, [queuedUpdates] is the queue
    of [DOM.queueUpdate], and [emitted] is the log of [$emit] calls, both
    oldest first. *)
Record ColorPicker := mkColorPicker
  { value : string;
    autofocus : bool;
    isOpen : bool;
    isMouseActive : bool;
    uiValues : ColorPickerUI.t;
    currentMouseTarget : option DOMRect.t;
    currentMouseParam : option string;
    currentRGBColor : option ColorRGBA64.t;
    currentHSVColor : option ColorHSV.t;
    proxyBackgroundColor : string;
    proxyType : option string;
    queuedUpdates : list callback;
    emitted : list string }.

Definition with_value (x : string) (st : ColorPicker) : ColorPicker :=
  mkColorPicker x (autofocus st) (isOpen st) (isMouseActive st) (uiValues st)
    (currentMouseTarget st) (currentMouseParam st) (currentRGBColor st)
    (currentHSVColor st) (proxyBackgroundColor st) (proxyType st)
    (queuedUpdates st) (emitted st).

Definition with_isOpen (x : bool) (st : ColorPicker) : ColorPicker :=
  mkColorPicker (value st) (autofocus st) x (isMouseActive st) (uiValues st)
    (currentMouseTarget st) (currentMouseParam st) (currentRGBColor st)
    (currentHSVColor st) (proxyBackgroundColor st) (proxyType st)
    (queuedUpdates st) (emitted st).

Definition with_isMouseActive (x : bool) (st : ColorPicker) : ColorPicker :=
  mkColorPicker (value st) (autofocus st) (isOpen st) x (uiValues st)
    (currentMouseTarget st) (currentMouseParam st) (currentRGBColor st)
    (currentHSVColor st) (proxyBackgroundColor st) (proxyType st)
    (queuedUpdates st) (emitted st).

Definition with_uiValues (x : ColorPickerUI.t) (st : ColorPicker)
  : ColorPicker :=
  mkColorPicker (value st) (autofocus st) (isOpen st) (isMouseActive st) x
    (currentMouseTarget st) (currentMouseParam st) (currentRGBColor st)
    (currentHSVColor st) (proxyBackgroundColor st) (proxyType st)
    (queuedUpdates st) (emitted st).

Definition with_currentMouseTarget (x : option DOMRect.t) (st : ColorPicker)
  : ColorPicker :=
  mkColorPicker (value st) (autofocus st) (isOpen st) (isMouseActive st)
    (uiValues st) x (currentMouseParam st) (currentRGBColor st)
    (currentHSVColor st) (proxyBackgroundColor st) (proxyType st)
    (queuedUpdates st) (emitted st).

Definition with_currentMouseParam (x : option string) (st : ColorPicker)
  : ColorPicker :=
  mkColorPicker (value st) (autofocus st) (isOpen st) (isMouseActive st)
    (uiValues st) (currentMouseTarget st) x (currentRGBColor st)
    (currentHSVColor st) (proxyBackgroundColor st) (proxyType st)
    (queuedUpdates st) (emitted st).

Definition with_currentRGBColor (x : option ColorRGBA64.t) (st : ColorPicker)
  : ColorPicker :=
  mkColorPicker (value st) (autofocus st) (isOpen st) (isMouseActive st)
    (uiValues st) (currentMouseTarget st) (currentMouseParam st) x
    (currentHSVColor st) (proxyBackgroundColor st) (proxyType st)
    (queuedUpdates st) (emitted st).

Definition with_currentHSVColor (x : option ColorHSV.t) (st : ColorPicker)
  : ColorPicker :=
  mkColorPicker (value st) (autofocus st) (isOpen st) (isMouseActive st)
    (uiValues st) (currentMouseTarget st) (currentMouseParam st)
    (currentRGBColor st) x (proxyBackgroundColor st) (proxyType st)
    (queuedUpdates st) (emitted st).

Definition with_proxyBackgroundColor (x : string) (st : ColorPicker)
  : ColorPicker :=
  mkColorPicker (value st) (autofocus st) (isOpen st) (isMouseActive st)
    (uiValues st) (currentMouseTarget st) (currentMouseParam st)
    (currentRGBColor st) (currentHSVColor st) x (proxyType st)
    (queuedUpdates st) (emitted st).

Definition with_proxyType (x : option string) (st : ColorPicker)
  : ColorPicker :=
  mkColorPicker (value st) (autofocus st) (isOpen st) (isMouseActive st)
    (uiValues st) (currentMouseTarget st) (currentMouseParam st)
    (currentRGBColor st) (currentHSVColor st) (proxyBackgroundColor st) x
    (queuedUpdates st) (emitted st).

Definition with_queuedUpdates (x : list callback) (st : ColorPicker)
  : ColorPicker :=
  mkColorPicker (value st) (autofocus st) (isOpen st) (isMouseActive st)
    (uiValues st) (currentMouseTarget st) (currentMouseParam st)
    (currentRGBColor st) (currentHSVColor st) (proxyBackgroundColor st)
    (proxyType st) x (emitted st).

Definition with_emitted (x : list string) (st : ColorPicker) : ColorPicker :=
  mkColorPicker (value st) (autofocus st) (isOpen st) (isMouseActive st)
    (uiValues st) (currentMouseTarget st) (currentMouseParam st)
    (currentRGBColor st) (currentHSVColor st) (proxyBackgroundColor st)
    (proxyType st) (queuedUpdates st) x.

(** ** Handlers as computations

    A handler runs on the element's fields and either returns or throws;
    the fields keep what was assigned before a throw. *)

Definition M (A : Type) : Type := ColorPicker -> option A * ColorPicker.

Definition ret {A} (x : A) : M A := fun st => (Some x, st).

Definition bind {A B} (c : M A) (k : A -> M B) : M B :=
  fun st =>
    match c st with
    | (Some x, st') => k x st'
    | (None, st') => (None, st')
    end.

Definition throwTypeError {A} : M A := fun st => (None, st).

Definition gets {A} (f : ColorPicker -> A) : M A := fun st => (Some (f st), st).

Definition assign (f : ColorPicker -> ColorPicker) : M unit :=
  fun st => (Some tt, f st).

(** Reading a property of a reference: [null] and [undefined] throw. *)
Definition deref {A} (o : option A) : M A :=
  match o with
  | Some x => ret x
  | None => throwTypeError
  end.

Definition emit (name : string) : M unit :=
  assign (fun st => with_emitted (emitted st ++ [name]) st).

Definition DOM_queueUpdate (task : callback) : M unit :=
  assign (fun st => with_queuedUpdates (queuedUpdates st ++ [task]) st).

Declare Scope js_scope.
Delimit Scope js_scope with js.
Notation "x <- c ;; k" := (bind c (fun x => k))
  (at level 61, c at next level, right associativity) : js_scope.
Notation "c ;; k" := (bind c (fun _ => k))
  (at level 61, right associativity) : js_scope.

(** Modelled from the spec: [isNullOrWhiteSpace] of fast-web-utilities is
    absent; the spec calls its argument a blank or whitespace string: the
    empty string and the strings of white space only. *)
Fixpoint isNullOrWhiteSpace (s : string) : bool :=
  match s with
  | EmptyString => true
  | String c rest => JS.isWhiteSpace c && isNullOrWhiteSpace rest
  end.

(** [param == 'h'] on a property that may hold [null]. *)
Definition param_is (p : option string) (name : string) : bool :=
  match p with
  | Some q => String.eqb q name
  | None => false
  end.

Local Open Scope float_scope.
Local Open Scope js_scope.

(** ** The element *)

(** The collaborators the element imports and does not define: the colour
    functions of fast-colors and the browser's CSS engine.  [parseColor]
    returns [null], here [None], for a string it cannot read.
    [styleReadBack t] is what [proxy.style.backgroundColor] reads as after
    the property was emptied and then assigned [t]: the colour as the
    browser serialises it, or the empty string when the browser refused
    the assignment. *)
Class Collaborators := {
  parseColor : string -> option ColorRGBA64.t;
  rgbToHSV : ColorRGBA64.t -> ColorHSV.t;
  hsvToRGB : ColorHSV.t -> JS.number -> ColorRGBA64.t;
  toStringHexRGB : ColorRGBA64.t -> string;
  toStringWebRGBA : ColorRGBA64.t -> string;
  styleReadBack : string -> string
}.

Section ColorPickerElement.

Context {lib : Collaborators}.

(** [new ColorPickerUI(rgbColor, hsvColor)] on two colours. *)
Definition ColorPickerUI_new
    (rgbColor : ColorRGBA64.t) (hsvColor : ColorHSV.t) : ColorPickerUI.t :=
  let temp := ColorHSV.mk (ColorHSV.h hsvColor) 1 1 in
  ColorPickerUI.mk rgbColor hsvColor
    (toStringHexRGB (hsvToRGB temp 1))
    (ColorHSV.h hsvColor / 360 * 100)
    (100 - ColorHSV.v hsvColor * 100)
    (ColorHSV.s hsvColor * 100)
    (ColorRGBA64.a rgbColor * 100).

(** The constructor reads the channels of both arguments, so either
    being [null] makes it throw before anything is stored. *)
Definition new_ColorPickerUI
    (rgbColor : option ColorRGBA64.t) (hsvColor : option ColorHSV.t)
  : M ColorPickerUI.t :=
  hsv <- deref hsvColor ;;
  rgb <- deref rgbColor ;;
  ret (ColorPickerUI_new rgb hsv).

(** The element as its field initialisers leave it, before it is
    attached, with the given text value and [autofocus] attribute. *)
Definition constructed (text : string) (focus : bool) : ColorPicker :=
  mkColorPicker text focus false false
    (ColorPickerUI_new (ColorRGBA64.new 1 0 0 None) (ColorHSV.mk 0 1 1))
    None None None None "" None [] [].

(** The serialisation written to the text field: hex when the colour is
    opaque, functional notation otherwise. *)
Definition serialisation (c : ColorRGBA64.t) : string :=
  if JS.neq (ColorRGBA64.a c) 1
  then toStringWebRGBA c
  else toStringHexRGB c.

Definition updateUIValues (updateValue : bool) : M unit :=
  rgbColor <- gets currentRGBColor ;;
  hsvColor <- gets currentHSVColor ;;
  newVal <- new_ColorPickerUI rgbColor hsvColor ;;
  assign (with_uiValues newVal) ;;
  if updateValue then
    rgb <- (o <- gets currentRGBColor ;; deref o) ;;
    assign (with_value (serialisation rgb)) ;;
    emit "change"
  else ret tt.

(** [rgbToHSV] reads the channels of its argument, so it throws when
    handed [null].  The call of the base class's [connectedCallback] is
    left out. *)
Definition connectedCallback : M unit :=
  assign (with_isOpen false) ;;
  text <- gets value ;;
  (if negb (isNullOrWhiteSpace text)
   then assign (with_currentRGBColor (parseColor text))
   else assign (with_currentRGBColor
                  (Some (ColorRGBA64.new 1 0 0 (Some 1))))) ;;
  rgb <- (o <- gets currentRGBColor ;; deref o) ;;
  assign (with_currentHSVColor (Some (rgbToHSV rgb))) ;;
  updateUIValues false ;;
  assign (with_proxyType (Some "colorpicker")) ;;
  focus <- gets autofocus ;;
  if focus then DOM_queueUpdate callFocus else ret tt.

Definition handleFocus : M unit := assign (with_isOpen true).

Definition handleBlur : M unit := assign (with_isOpen false).

(** The proxy's background colour is emptied, assigned and read back. *)
Definition isValideCSSColor (testValue : string) : M bool :=
  assign (with_proxyBackgroundColor "") ;;
  assign (with_proxyBackgroundColor (styleReadBack testValue)) ;;
  shown <- gets proxyBackgroundColor ;;
  ret (if negb (String.eqb shown "") then true else false).

(** The argument is [this.control.value], the content of the text
    field when the [input] event arrives. *)
Definition handleTextInput (controlValue : string) : M unit :=
  assign (with_value controlValue) ;;
  text <- gets value ;;
  valid <- isValideCSSColor text ;;
  if valid then
    text <- gets value ;;
    assign (with_currentRGBColor (parseColor text)) ;;
    rgb <- (o <- gets currentRGBColor ;; deref o) ;;
    assign (with_currentHSVColor (Some (rgbToHSV rgb))) ;;
    updateUIValues false ;;
    emit "change"
  else ret tt.

Definition isValideRGB (val : JS.number) : bool :=
  JS.ge val 0 && JS.le val 255.

Definition isValideAlpha (val : JS.number) : bool :=
  JS.ge val 0 && JS.le val 100.

Definition isValideSatVal (val : JS.number) : bool :=
  JS.ge val 0 && JS.le val 100.

Definition isValideHue (val : JS.number) : bool :=
  JS.ge val 0 && JS.le val 359.

Definition updateHSV (hue sat val : JS.number) : M unit :=
  assign (with_currentHSVColor (Some (ColorHSV.mk hue sat val))) ;;
  hsv <- (o <- gets currentHSVColor ;; deref o) ;;
  rgb <- (o <- gets currentRGBColor ;; deref o) ;;
  assign (with_currentRGBColor (Some (hsvToRGB hsv (ColorRGBA64.a rgb)))) ;;
  updateUIValues true.

Definition includes (names : list string) (param : string) : bool :=
  existsb (String.eqb param) names.

(** The second argument is the content of the numeric field the event
    comes from. *)
Definition handleTextValueInput (param : string) (inputVal : string)
  : M unit :=
  if isNullOrWhiteSpace inputVal || JS.Number_isNaN_string inputVal
  then ret tt
  else
    let newVal := JS.parseInt inputVal in
    if includes ["r"; "g"; "b"; "a"] param then
      if negb (String.eqb param "a") && isValideRGB newVal
         || String.eqb param "a" && isValideAlpha newVal
      then
        rgb <- (o <- gets currentRGBColor ;; deref o) ;;
        assign (with_currentRGBColor (Some (ColorRGBA64.new
          (if String.eqb param "r" then newVal / 255 else ColorRGBA64.r rgb)
          (if String.eqb param "g" then newVal / 255 else ColorRGBA64.g rgb)
          (if String.eqb param "b" then newVal / 255 else ColorRGBA64.b rgb)
          (Some
             (if String.eqb param "a" then newVal / 100
              else ColorRGBA64.a rgb))))) ;;
        rgb' <- (o <- gets currentRGBColor ;; deref o) ;;
        assign (with_currentHSVColor (Some (rgbToHSV rgb'))) ;;
        updateUIValues true
      else ret tt
    else if includes ["h"; "s"; "v"] param then
      if negb (String.eqb param "h") && isValideSatVal newVal
         || String.eqb param "h" && isValideHue newVal
      then
        hsv <- (o <- gets currentHSVColor ;; deref o) ;;
        updateHSV
          (if String.eqb param "h" then newVal else ColorHSV.h hsv)
          (if String.eqb param "s" then newVal / 100 else ColorHSV.s hsv)%float
          (if String.eqb param "v" then newVal / 100 else ColorHSV.v hsv)%float
      else ret tt
    else ret tt.

Definition handleChange : M unit := emit "change".

Definition updateFromMouseEvent (pageX pageY : JS.number) : M unit :=
  pos <- (o <- gets currentMouseTarget ;; deref o) ;;
  let x := (pageX - DOMRect.left pos)%float in
  let y := (pageY - DOMRect.top pos)%float in
  let width := DOMRect.width pos in
  let height := DOMRect.height pos in
  let x := if JS.gt x width then width else x in
  let y := if JS.gt y height then height else y in
  let x := if JS.lt x 0 then 0%float else x in
  let y := if JS.lt y 0 then 0%float else y in
  param <- gets currentMouseParam ;;
  if param_is param "h" then
    let hue := (359 * x / width)%float in
    hsv <- (o <- gets currentHSVColor ;; deref o) ;;
    updateHSV hue (ColorHSV.s hsv) (ColorHSV.v hsv)
  else if param_is param "sv" then
    let value' := (JS.Math_round (100 - y * 100 / height) / 100)%float in
    let saturation := (JS.Math_round (x * 100 / width) / 100)%float in
    hsv <- (o <- gets currentHSVColor ;; deref o) ;;
    updateHSV (ColorHSV.h hsv) saturation value'
  else if param_is param "a" then
    let alpha := (JS.Math_round (x * 100 / width) / 100)%float in
    rgb <- (o <- gets currentRGBColor ;; deref o) ;;
    assign (with_currentRGBColor (Some (ColorRGBA64.new
      (ColorRGBA64.r rgb) (ColorRGBA64.g rgb) (ColorRGBA64.b rgb)
      (Some alpha)))) ;;
    updateUIValues true
  else ret tt.

(** The two last arguments of the mouse handlers are [e.pageX] and
    [e.pageY]; [target] is the first element of the event's composed
    path. *)
Definition handleMouseDown
    (param : string) (target : DOMRect.t) (pageX pageY : JS.number)
  : M unit :=
  assign (with_currentMouseTarget (Some target)) ;;
  assign (with_currentMouseParam (Some param)) ;;
  updateFromMouseEvent pageX pageY ;;
  assign (with_isMouseActive true).

Definition handleMouseMove (pageX pageY : JS.number) : M unit :=
  updateFromMouseEvent pageX pageY.

Definition handleMouseUp (pageX pageY : JS.number) : M unit :=
  updateFromMouseEvent pageX pageY ;;
  assign (with_currentMouseTarget None) ;;
  assign (with_currentMouseParam None) ;;
  assign (with_isMouseActive false).

End ColorPickerElement.

(** ** The vocabulary of the statements *)

(** The offset of the pointer inside the target, as the four [if]
    statements of [updateFromMouseEvent] leave it. *)
Definition clamped (offset limit : JS.number) : JS.number :=
  let x := if JS.gt offset limit then limit else offset in
  if JS.lt x 0 then 0 else x.

Section Vocabulary.

Context {lib : Collaborators}.

(** The element once both colours are stored and the snapshot is
    recomputed from them. *)
Definition snapshotted
    (rgb : ColorRGBA64.t) (hsv : ColorHSV.t) (st : ColorPicker)
  : ColorPicker :=
  with_uiValues (ColorPickerUI_new rgb hsv)
    (with_currentRGBColor (Some rgb) (with_currentHSVColor (Some hsv) st)).

(** The same with the text value regenerated and one [change] emitted. *)
Definition committed
    (rgb : ColorRGBA64.t) (hsv : ColorHSV.t) (st : ColorPicker)
  : ColorPicker :=
  with_emitted (emitted st ++ ["change"])
    (with_value (serialisation rgb) (snapshotted rgb hsv st)).

(** The colour a position of the pointer selects in each zone. *)
Definition hueAt (pos : DOMRect.t) (pageX : JS.number) : JS.number :=
  359 * clamped (pageX - DOMRect.left pos) (DOMRect.width pos)
  / DOMRect.width pos.

Definition percentAcross (pos : DOMRect.t) (pageX : JS.number) : JS.number :=
  JS.Math_round
    (clamped (pageX - DOMRect.left pos) (DOMRect.width pos) * 100
     / DOMRect.width pos) / 100.

Definition percentUp (pos : DOMRect.t) (pageY : JS.number) : JS.number :=
  JS.Math_round
    (100 - clamped (pageY - DOMRect.top pos) (DOMRect.height pos) * 100
           / DOMRect.height pos) / 100.

(** What [updateFromMouseEvent] does once the offsets are clamped. *)
Definition applyOffsets (pos : DOMRect.t) (x y : JS.number) : M unit :=
  param <- gets currentMouseParam ;;
  if param_is param "h" then
    hsv <- (o <- gets currentHSVColor ;; deref o) ;;
    updateHSV (359 * x / DOMRect.width pos) (ColorHSV.s hsv) (ColorHSV.v hsv)
  else if param_is param "sv" then
    hsv <- (o <- gets currentHSVColor ;; deref o) ;;
    updateHSV (ColorHSV.h hsv)
      (JS.Math_round (x * 100 / DOMRect.width pos) / 100)
      (JS.Math_round (100 - y * 100 / DOMRect.height pos) / 100)
  else if param_is param "a" then
    rgb <- (o <- gets currentRGBColor ;; deref o) ;;
    assign (with_currentRGBColor (Some (ColorRGBA64.new
      (ColorRGBA64.r rgb) (ColorRGBA64.g rgb) (ColorRGBA64.b rgb)
      (Some (JS.Math_round (x * 100 / DOMRect.width pos) / 100))))) ;;
    updateUIValues true
  else ret tt.

(** Whether a numeric field accepts a number: the two range tests of
    [handleTextValueInput]. *)
Definition acceptsValue (param : string) (newVal : JS.number) : bool :=
  if includes ["r"; "g"; "b"; "a"] param then
    negb (String.eqb param "a") && isValideRGB newVal
    || String.eqb param "a" && isValideAlpha newVal
  else if includes ["h"; "s"; "v"] param then
    negb (String.eqb param "h") && isValideSatVal newVal
    || String.eqb param "h" && isValideHue newVal
  else false.

(** The colour [handleTextValueInput] builds for an accepted number in
    one of the fields r, g, b, a. *)
Definition withChannel (param : string) (n : JS.number) (rgb : ColorRGBA64.t)
  : ColorRGBA64.t :=
  ColorRGBA64.new
    (if String.eqb param "r" then n / 255 else ColorRGBA64.r rgb)
    (if String.eqb param "g" then n / 255 else ColorRGBA64.g rgb)
    (if String.eqb param "b" then n / 255 else ColorRGBA64.b rgb)
    (Some (if String.eqb param "a" then n / 100 else ColorRGBA64.a rgb)).

(** The seven numeric fields, the string each passes as [param], and
    the largest number each accepts. *)
Inductive channel : Set := chR | chG | chB | chA | chH | chS | chV.

Definition param_of (c : channel) : string :=
  match c with
  | chR => "r" | chG => "g" | chB => "b" | chA => "a"
  | chH => "h" | chS => "s" | chV => "v"
  end.

Definition upper (c : channel) : JS.number :=
  match c with
  | chR | chG | chB => 255
  | chA | chS | chV => 100
  | chH => 359
  end.

Definition legal (c : channel) (n : JS.number) : bool :=
  JS.le 0 n && JS.le n (upper c).

(** The edits that commit: a numeric field and the three mouse events. *)
Inductive edit : Type :=
| NumericField (param inputVal : string)
| MouseDown (param : string) (target : DOMRect.t) (pageX pageY : JS.number)
| MouseMove (pageX pageY : JS.number)
| MouseUp (pageX pageY : JS.number).

Definition perform (e : edit) : M unit :=
  match e with
  | NumericField param inputVal => handleTextValueInput param inputVal
  | MouseDown param target pageX pageY =>
      handleMouseDown param target pageX pageY
  | MouseMove pageX pageY => handleMouseMove pageX pageY
  | MouseUp pageX pageY => handleMouseUp pageX pageY
  end.

(** The end of [connectedCallback], after the snapshot. *)
Definition attachedTo (st : ColorPicker) : ColorPicker :=
  let st' := with_proxyType (Some "colorpicker") st in
  if autofocus st'
  then with_queuedUpdates (queuedUpdates st' ++ [callFocus]) st'
  else st'.

(** Every event the template delivers to the element. *)
Inductive event : Type :=
| Attach
| Focus
| Blur
| TextInput (controlValue : string)
| Change
| Edit (e : edit).

Definition handle (ev : event) : M unit :=
  match ev with
  | Attach => connectedCallback
  | Focus => handleFocus
  | Blur => handleBlur
  | TextInput controlValue => handleTextInput controlValue
  | Change => handleChange
  | Edit e => perform e
  end.

(** How an edit can end in a state [st]: returning with nothing changed
    or with a colour committed, or throwing with nothing changed or with
    only one new colour stored, the other one missing. *)
Definition outcome (st : ColorPicker) (result : option unit * ColorPicker)
  : Prop :=
  result = (Some tt, st)
  \/ (exists rgb hsv,
        currentRGBColor st <> None
        /\ result = (Some tt, committed rgb hsv st))
  \/ (result = (None, st)
      /\ (currentMouseTarget st = None \/ currentRGBColor st = None
          \/ currentHSVColor st = None))
  \/ (exists hsv,
        currentRGBColor st = None
        /\ result = (None, with_currentHSVColor (Some hsv) st))
  \/ (exists rgb,
        currentRGBColor st <> None /\ currentHSVColor st = None
        /\ result = (None, with_currentRGBColor (Some rgb) st)).

(** Two states that differ at most in the drag state: the mouse target,
    the zone and the flag [isMouseActive]. *)
Definition sameButDrag (st st' : ColorPicker) : Prop :=
  value st' = value st
  /\ autofocus st' = autofocus st
  /\ isOpen st' = isOpen st
  /\ uiValues st' = uiValues st
  /\ currentRGBColor st' = currentRGBColor st
  /\ currentHSVColor st' = currentHSVColor st
  /\ proxyBackgroundColor st' = proxyBackgroundColor st
  /\ proxyType st' = proxyType st
  /\ queuedUpdates st' = queuedUpdates st
  /\ emitted st' = emitted st.

(** The snapshot is in step: both colours are stored and the snapshot is
    the one computed from them. *)
Definition inStep (st : ColorPicker) : Prop :=
  exists rgb hsv,
    currentRGBColor st = Some rgb /\ currentHSVColor st = Some hsv
    /\ uiValues st = ColorPickerUI_new rgb hsv.

End Vocabulary.

(** ** A concrete set of collaborators

    Small stand-ins for fast-colors and for the browser, on which the
    handlers can be run: a parser that knows a few spellings, the usual
    conversions between RGB and HSV, the two serialisations on whole
    percents, and a browser that also accepts [hsl()] notation, which the
    parser does not read. *)

Module Fixture.

Definition red : ColorRGBA64.t := ColorRGBA64.mk 1 0 0 1.
Definition blue : ColorRGBA64.t := ColorRGBA64.mk 0 0 1 1.

Definition parseColor (text : string) : option ColorRGBA64.t :=
  if String.eqb text "#ff0000" then Some red
  else if String.eqb text "red" then Some red
  else if String.eqb text "#0000ff" then Some blue
  else if String.eqb text "blue" then Some blue
  else None.

Definition styleReadBack (text : string) : string :=
  if String.eqb text "#ff0000" then "rgb(255, 0, 0)"
  else if String.eqb text "red" then "red"
  else if String.eqb text "#0000ff" then "rgb(0, 0, 255)"
  else if String.eqb text "blue" then "blue"
  else if String.eqb text "hsl(0, 100%, 50%)" then "rgb(255, 0, 0)"
  else "".

Definition max (x y : JS.number) : JS.number := if JS.lt x y then y else x.
Definition min (x y : JS.number) : JS.number := if JS.lt y x then y else x.

Definition rgbToHSV (c : ColorRGBA64.t) : ColorHSV.t :=
  let r := ColorRGBA64.r c in
  let g := ColorRGBA64.g c in
  let b := ColorRGBA64.b c in
  let hi := max r (max g b) in
  let lo := min r (min g b) in
  let delta := hi - lo in
  let hue :=
    if delta =? 0 then 0
    else if hi =? r then
      let t := (g - b) / delta in 60 * (if JS.lt t 0 then t + 6 else t)
    else if hi =? g then 60 * ((b - r) / delta + 2)
    else 60 * ((r - g) / delta + 4) in
  ColorHSV.mk hue (if hi =? 0 then 0 else delta / hi) hi.

Definition hsvToRGB (c : ColorHSV.t) (alpha : JS.number) : ColorRGBA64.t :=
  let h := ColorHSV.h c in
  let chroma := ColorHSV.s c * ColorHSV.v c in
  let t := h / 60 in
  let t2 := if JS.lt t 2 then t else if JS.lt t 4 then t - 2 else t - 4 in
  let x := chroma * (1 - abs (t2 - 1)) in
  let m := ColorHSV.v c - chroma in
  let rgb :=
    if JS.lt h 60 then (chroma, x, 0)
    else if JS.lt h 120 then (x, chroma, 0)
    else if JS.lt h 180 then (0, chroma, x)
    else if JS.lt h 240 then (0, x, chroma)
    else if JS.lt h 300 then (x, 0, chroma)
    else (chroma, 0, x) in
  ColorRGBA64.mk (fst (fst rgb) + m) (snd (fst rgb) + m) (snd rgb + m) alpha.

(** The integer a number stands for, fractions dropped; zero for NaN
    and the infinities. *)
Definition truncate (x : JS.number) : Z :=
  match Prim2SF x with
  | S754_finite sg m e =>
      let n := if (0 <=? e)%Z then (Z.pos m * 2 ^ e)%Z
               else (Z.pos m / 2 ^ (- e))%Z in
      if sg then (- n)%Z else n
  | _ => 0%Z
  end.

Definition digitChar (n : Z) : string :=
  String.substring (Z.to_nat n) 1 "0123456789abcdef".

Definition hexByte (x : JS.number) : string :=
  let n := truncate (JS.Math_round (x * 255)) in
  (digitChar (n / 16) ++ digitChar (n mod 16))%string.

Fixpoint decimalDigits (fuel : nat) (n : Z) (acc : string) : string :=
  match fuel with
  | O => acc
  | S fuel' =>
      let acc' := (digitChar (n mod 10) ++ acc)%string in
      if (n / 10 =? 0)%Z then acc' else decimalDigits fuel' (n / 10)%Z acc'
  end.

Definition decimal (n : Z) : string := decimalDigits 20 n "".

Definition toStringHexRGB (c : ColorRGBA64.t) : string :=
  ("#" ++ hexByte (ColorRGBA64.r c) ++ hexByte (ColorRGBA64.g c)
       ++ hexByte (ColorRGBA64.b c))%string.

Definition percentString (x : JS.number) : string :=
  let p := truncate (JS.Math_round (x * 100)) in
  if (100 <=? p)%Z then "1"
  else if (p =? 0)%Z then "0"
  else if (p mod 10 =? 0)%Z then ("0." ++ decimal (p / 10))%string
  else if (p <? 10)%Z then ("0.0" ++ decimal p)%string
  else ("0." ++ decimal p)%string.

Definition channelString (x : JS.number) : string :=
  decimal (truncate (JS.Math_round (x * 255))).

Definition toStringWebRGBA (c : ColorRGBA64.t) : string :=
  ("rgba(" ++ channelString (ColorRGBA64.r c) ++ ","
           ++ channelString (ColorRGBA64.g c) ++ ","
           ++ channelString (ColorRGBA64.b c) ++ ","
           ++ percentString (ColorRGBA64.a c) ++ ")")%string.

Definition lib : Collaborators :=
  Build_Collaborators parseColor rgbToHSV hsvToRGB
    toStringHexRGB toStringWebRGBA styleReadBack.

(** The element with the text [#ff0000], before and after it is
    attached. *)
Definition fresh : ColorPicker := constructed (lib := lib) "#ff0000" false.

Definition attached : ColorPicker := snd (connectedCallback (lib := lib) fresh).

(** A slider of 200 by 20 pixels at the origin of the page. *)
Definition slider : DOMRect.t := DOMRect.mk 0 0 200 20.

(** The element while the given zone of [slider] is being dragged. *)
Definition dragging (zone : string) : ColorPicker :=
  with_isMouseActive true
    (with_currentMouseParam (Some zone)
       (with_currentMouseTarget (Some slider) attached)).

End Fixture.

(** ** The built-ins and the element on concrete inputs *)

Example Math_round_ties_go_up :
  JS.Math_round 24.5 = 25 /\ JS.Math_round (-2.5) = -2
  /\ JS.Math_round 0.5 = 1 /\ JS.Math_round (-0.5) = JS.neg_zero
  /\ JS.Math_round 0.25 = 0 /\ JS.Math_round (-3.75) = -4
  /\ JS.Math_round nan = nan /\ JS.Math_round infinity = infinity.
Proof. repeat split. Qed.

Example parseInt_reads_a_prefix :
  JS.parseInt "359" = 359 /\ JS.parseInt "  -12abc" = -12
  /\ JS.parseInt "+7.9" = 7 /\ JS.parseInt "0x1F" = 31
  /\ JS.parseInt "-0" = JS.neg_zero
  /\ JS.parseInt "abc" = nan /\ JS.parseInt "" = nan.
Proof. repeat split. Qed.

Example blank_strings :
  isNullOrWhiteSpace "" = true /\ isNullOrWhiteSpace "   " = true
  /\ isNullOrWhiteSpace " 1 " = false.
Proof. repeat split. Qed.

(** Attached with the text [#ff0000], the element holds opaque red, the
    HSV colour (0, 1, 1) and the thumbs at 0, 100, 0 and 100 percent, and
    has emitted nothing. *)
Example attached_with_red :
  connectedCallback (lib := Fixture.lib) Fixture.fresh
  = (Some tt, Fixture.attached)
  /\ value Fixture.attached = "#ff0000"
  /\ currentRGBColor Fixture.attached = Some (ColorRGBA64.mk 1 0 0 1)
  /\ currentHSVColor Fixture.attached = Some (ColorHSV.mk 0 1 1)
  /\ uiValues Fixture.attached
     = ColorPickerUI.mk (ColorRGBA64.mk 1 0 0 1) (ColorHSV.mk 0 1 1)
         "#ff0000" 0 0 100 100
  /\ emitted Fixture.attached = [].
Proof. repeat split. Qed.

(** ** Facts about numbers *)

Module NumberFacts.

Lemma Prim2SF_zero : Prim2SF 0 = S754_zero false.
Proof. reflexivity. Qed.

(** A number that is neither above nor below zero is a zero or NaN. *)
Lemma not_lt_not_gt_zero (x : JS.number) :
  JS.lt 0 x = false -> JS.lt x 0 = false ->
  x = 0 \/ x = JS.neg_zero \/ x = nan.
Proof.
  unfold JS.lt. rewrite !FloatAxioms.ltb_spec, Prim2SF_zero.
  intros Hpos Hneg. rewrite <- (SF2Prim_Prim2SF x).
  destruct (Prim2SF x) as [sg | sg | | sg m e].
  - destruct sg; [right; left | left]; reflexivity.
  - destruct sg; discriminate.
  - right; right; reflexivity.
  - destruct sg; discriminate.
Qed.

Lemma clamped_zero_limit (x : JS.number) :
  clamped x 0 = 0 \/ clamped x 0 = JS.neg_zero \/ clamped x 0 = nan.
Proof.
  pose proof (not_lt_not_gt_zero x) as Hzero.
  unfold clamped, JS.gt, JS.lt in *.
  destruct (0 <? x) eqn:Hpos.
  - left. reflexivity.
  - destruct (x <? 0) eqn:Hneg.
    + left. reflexivity.
    + now apply Hzero.
Qed.

Lemma clamped_at_zero (limit : JS.number) : clamped 0 limit = 0.
Proof.
  unfold clamped, JS.gt, JS.lt.
  destruct (limit <? 0) eqn:Hlimit; [rewrite Hlimit |]; reflexivity.
Qed.

(** A negative offset is clamped to zero, whatever the limit. *)
Lemma clamped_negative (x limit : JS.number) :
  JS.lt x 0 = true -> clamped x limit = 0.
Proof.
  unfold clamped, JS.gt, JS.lt. intros Hneg.
  destruct (limit <? x) eqn:Habove; [| now rewrite Hneg].
  assert (Hlimit : (limit <? 0) = true); [| now rewrite Hlimit].
  rewrite FloatAxioms.ltb_spec, Prim2SF_zero in *.
  destruct (Prim2SF x) as [sx | sx | | sx mx ex];
    destruct (Prim2SF limit) as [sl | sl | | sl ml el];
    try discriminate;
    try destruct sx; try destruct sl; try discriminate; reflexivity.
Qed.

Lemma SFcompare_antisym (p q : spec_float) :
  SFcompare p q = option_map CompOpp (SFcompare q p).
Proof.
  destruct p as [sp | sp | | sp mp ep], q as [sq | sq | | sq mq eq];
    try destruct sp; try destruct sq; try reflexivity;
    unfold SFcompare;
    change (Pos.compare_cont Eq mp mq) with (mp ?= mq)%positive;
    change (Pos.compare_cont Eq mq mp) with (mq ?= mp)%positive;
    rewrite (Z.compare_antisym ep eq), (Pos.compare_antisym mp mq);
    destruct (ep ?= eq)%Z; simpl; try reflexivity;
    now destruct (mp ?= mq)%positive.
Qed.

Lemma SFcompare_refl (p : spec_float) :
  p <> S754_nan -> SFcompare p p = Some Eq.
Proof.
  destruct p as [sp | sp | | sp mp ep]; intros Hp;
    try destruct sp; try reflexivity; try congruence;
    unfold SFcompare;
    change (Pos.compare_cont Eq mp mp) with (mp ?= mp)%positive;
    now rewrite Z.compare_refl, Pos.compare_refl.
Qed.

Lemma isNaN_false (x : JS.number) :
  JS.isNaN x = false -> Prim2SF x <> S754_nan.
Proof.
  unfold JS.isNaN. rewrite FloatAxioms.eqb_spec. intros Hx Hnan.
  rewrite Hnan in Hx. discriminate.
Qed.

Lemma le_refl (x : JS.number) : JS.isNaN x = false -> JS.le x x = true.
Proof.
  intros Hx. apply isNaN_false in Hx.
  unfold JS.le. rewrite FloatAxioms.leb_spec. unfold SFleb.
  now rewrite SFcompare_refl.
Qed.

Lemma le_not_NaN (x y : JS.number) : JS.le x y = true -> JS.isNaN y = false.
Proof.
  unfold JS.le, JS.isNaN.
  rewrite FloatAxioms.leb_spec, FloatAxioms.eqb_spec. unfold SFleb, SFeqb.
  intros Hle. rewrite SFcompare_refl; [reflexivity |].
  intros Hnan. rewrite Hnan in Hle.
  destruct (Prim2SF x) as [sx | sx | | sx mx ex]; discriminate.
Qed.

(** Two numbers are comparable unless one is NaN. *)
Lemma not_lt_le (x y : JS.number) :
  JS.isNaN x = false -> JS.isNaN y = false ->
  JS.lt x y = false -> JS.le y x = true.
Proof.
  intros Hx Hy. apply isNaN_false in Hx, Hy.
  unfold JS.lt, JS.le.
  rewrite FloatAxioms.ltb_spec, FloatAxioms.leb_spec. unfold SFltb, SFleb.
  rewrite (SFcompare_antisym (Prim2SF y) (Prim2SF x)).
  destruct (Prim2SF x) as [sx | sx | | sx mx ex];
    destruct (Prim2SF y) as [sy | sy | | sy my ey];
    try congruence; simpl;
    try (destruct sx; simpl; congruence);
    try (destruct sy; simpl; congruence).
  - destruct sx, sy; simpl; congruence.
  - unfold SFcompare.
    change (Pos.compare_cont Eq mx my) with (mx ?= my)%positive.
    destruct sx, sy; simpl; try congruence;
      destruct (ex ?= ey)%Z; simpl; try congruence;
      destruct (mx ?= my)%positive; simpl; congruence.
Qed.

Lemma le_zero_not_lt (limit : JS.number) :
  JS.le 0 limit = true -> JS.lt limit 0 = false.
Proof.
  unfold JS.le, JS.lt.
  rewrite FloatAxioms.leb_spec, FloatAxioms.ltb_spec, Prim2SF_zero.
  destruct (Prim2SF limit) as [sl | sl | | sl ml el];
    try destruct sl; try discriminate; reflexivity.
Qed.

(** With a limit that is not negative, the clamped offset of a pointer
    position lies between zero and the limit. *)
Lemma clamped_range (x limit : JS.number) :
  JS.le 0 limit = true -> JS.isNaN x = false ->
  JS.le 0 (clamped x limit) = true /\ JS.le (clamped x limit) limit = true.
Proof.
  intros Hlimit Hx.
  pose proof (le_not_NaN _ _ Hlimit) as Hl.
  pose proof (le_zero_not_lt _ Hlimit) as Hl0.
  pose proof (not_lt_le limit x Hl Hx) as Hcmp.
  pose proof (not_lt_le x 0 Hx eq_refl) as Hcmp0.
  pose proof (le_refl limit Hl) as Hll.
  unfold clamped, JS.gt, JS.lt, JS.le in *.
  destruct (limit <? x) eqn:Habove.
  - rewrite Hl0. now split.
  - destruct (x <? 0) eqn:Hneg.
    + now split.
    + split; [now apply Hcmp0 | now apply Hcmp].
Qed.

(** The product of two numbers does not depend on their order. *)
Lemma mul_comm (x y : JS.number) : x * y = y * x.
Proof.
  rewrite <- (SF2Prim_Prim2SF (x * y)), <- (SF2Prim_Prim2SF (y * x)).
  rewrite !mul_spec. f_equal. unfold SF64mul, SFmul.
  destruct (Prim2SF x) as [sx | sx | | sx mx ex];
    destruct (Prim2SF y) as [sy | sy | | sy my ey];
    try reflexivity; try (now rewrite xorb_comm).
  now rewrite xorb_comm, Pos.mul_comm, Z.add_comm.
Qed.

(** What the three zones compute on a target without extent. *)
Lemma hue_over_zero_width (x : JS.number) : 359 * clamped x 0 / 0 = nan.
Proof.
  destruct (clamped_zero_limit x) as [-> | [-> | ->]]; reflexivity.
Qed.

Lemma percent_over_zero_width (x : JS.number) :
  JS.Math_round (clamped x 0 * 100 / 0) / 100 = nan.
Proof.
  destruct (clamped_zero_limit x) as [-> | [-> | ->]]; reflexivity.
Qed.

Lemma percent_over_zero_height (y : JS.number) :
  JS.Math_round (100 - clamped y 0 * 100 / 0) / 100 = nan.
Proof.
  destruct (clamped_zero_limit y) as [-> | [-> | ->]]; reflexivity.
Qed.

End NumberFacts.

(** ** How the handlers run *)

Arguments JS.Math_round : simpl never.
Arguments JS.parseInt : simpl never.

Import NumberFacts.

Section Runs.

Context {lib : Collaborators}.

Lemma updateUIValues_false_run st rgb hsv :
  currentRGBColor st = Some rgb -> currentHSVColor st = Some hsv ->
  updateUIValues false st = (Some tt, snapshotted rgb hsv st).
Proof. destruct st; simpl; intros -> ->; reflexivity. Qed.

Lemma updateUIValues_true_run st rgb hsv :
  currentRGBColor st = Some rgb -> currentHSVColor st = Some hsv ->
  updateUIValues true st = (Some tt, committed rgb hsv st).
Proof. destruct st; simpl; intros -> ->; reflexivity. Qed.

Lemma updateHSV_run st rgb hue sat val :
  currentRGBColor st = Some rgb ->
  updateHSV hue sat val st
  = (Some tt,
     committed (hsvToRGB (ColorHSV.mk hue sat val) (ColorRGBA64.a rgb))
       (ColorHSV.mk hue sat val) st).
Proof. destruct st; simpl; intros ->; reflexivity. Qed.

Lemma drag_h_run st pos rgb hsv pageX pageY :
  currentMouseTarget st = Some pos -> currentMouseParam st = Some "h" ->
  currentRGBColor st = Some rgb -> currentHSVColor st = Some hsv ->
  let hsv' :=
    ColorHSV.mk (hueAt pos pageX) (ColorHSV.s hsv) (ColorHSV.v hsv) in
  updateFromMouseEvent pageX pageY st
  = (Some tt, committed (hsvToRGB hsv' (ColorRGBA64.a rgb)) hsv' st).
Proof. destruct st; simpl; intros -> -> -> ->; reflexivity. Qed.

Lemma drag_sv_run st pos rgb hsv pageX pageY :
  currentMouseTarget st = Some pos -> currentMouseParam st = Some "sv" ->
  currentRGBColor st = Some rgb -> currentHSVColor st = Some hsv ->
  let hsv' :=
    ColorHSV.mk (ColorHSV.h hsv) (percentAcross pos pageX)
      (percentUp pos pageY) in
  updateFromMouseEvent pageX pageY st
  = (Some tt, committed (hsvToRGB hsv' (ColorRGBA64.a rgb)) hsv' st).
Proof. destruct st; simpl; intros -> -> -> ->; reflexivity. Qed.

Lemma drag_a_run st pos rgb hsv pageX pageY :
  currentMouseTarget st = Some pos -> currentMouseParam st = Some "a" ->
  currentRGBColor st = Some rgb -> currentHSVColor st = Some hsv ->
  updateFromMouseEvent pageX pageY st
  = (Some tt,
     committed
       (ColorRGBA64.new (ColorRGBA64.r rgb) (ColorRGBA64.g rgb)
          (ColorRGBA64.b rgb) (Some (percentAcross pos pageX)))
       hsv st).
Proof. destruct st; simpl; intros -> -> -> ->; reflexivity. Qed.

Lemma updateFromMouseEvent_clamped st pos pageX pageY :
  currentMouseTarget st = Some pos ->
  updateFromMouseEvent pageX pageY st
  = applyOffsets pos
      (clamped (pageX - DOMRect.left pos) (DOMRect.width pos))
      (clamped (pageY - DOMRect.top pos) (DOMRect.height pos)) st.
Proof.
  intros Htarget. unfold updateFromMouseEvent, bind at 1 2, gets at 1, deref.
  rewrite Htarget. reflexivity.
Qed.

(** *** What a normal return tells *)

Lemma updateUIValues_true_inv st st' :
  updateUIValues true st = (Some tt, st') ->
  exists rgb hsv,
    currentRGBColor st = Some rgb /\ currentHSVColor st = Some hsv
    /\ st' = committed rgb hsv st.
Proof.
  intros Hrun.
  destruct (currentRGBColor st) as [rgb |] eqn:Hrgb;
    destruct (currentHSVColor st) as [hsv |] eqn:Hhsv;
    try (destruct st; simpl in *; subst; discriminate).
  rewrite (updateUIValues_true_run st rgb hsv Hrgb Hhsv) in Hrun.
  exists rgb, hsv. repeat split. congruence.
Qed.

Lemma updateHSV_inv st st' hue sat val :
  updateHSV hue sat val st = (Some tt, st') ->
  exists rgb,
    currentRGBColor st = Some rgb
    /\ st' = committed
               (hsvToRGB (ColorHSV.mk hue sat val) (ColorRGBA64.a rgb))
               (ColorHSV.mk hue sat val) st.
Proof.
  intros Hrun.
  destruct (currentRGBColor st) as [rgb |] eqn:Hrgb;
    try (destruct st; simpl in *; subst; discriminate).
  rewrite (updateHSV_run st rgb hue sat val Hrgb) in Hrun.
  exists rgb. split; congruence.
Qed.

(** A drag that returns in one of the three zones found a target and
    both colours. *)
Lemma drag_returns_inv st st' zone pageX pageY :
  currentMouseParam st = Some zone -> In zone ["h"; "sv"; "a"] ->
  updateFromMouseEvent pageX pageY st = (Some tt, st') ->
  exists pos rgb hsv,
    currentMouseTarget st = Some pos
    /\ currentRGBColor st = Some rgb /\ currentHSVColor st = Some hsv.
Proof.
  intros Hparam Hzone Hrun.
  destruct (currentMouseTarget st) as [pos |] eqn:Htarget;
    destruct (currentRGBColor st) as [rgb |] eqn:Hrgb;
    destruct (currentHSVColor st) as [hsv |] eqn:Hhsv;
    try (now exists pos, rgb, hsv); exfalso;
    destruct Hzone as [<- | [<- | [<- | []]]];
    destruct st; simpl in *; subst; discriminate.
Qed.

Lemma committed_differs rgb hsv st : committed rgb hsv st <> st.
Proof.
  intros Heq. apply (f_equal (fun e => List.length (emitted e))) in Heq.
  simpl in Heq. rewrite length_app in Heq. simpl in Heq. lia.
Qed.

Lemma updateFromMouseEvent_inv st st' pageX pageY :
  updateFromMouseEvent pageX pageY st = (Some tt, st') ->
  st' = st \/ exists rgb hsv, st' = committed rgb hsv st.
Proof.
  destruct (currentMouseTarget st) as [pos |] eqn:Htarget;
    [| destruct st; simpl in *; subst; discriminate].
  rewrite (updateFromMouseEvent_clamped st pos) by assumption.
  unfold applyOffsets, bind at 1, gets at 1.
  destruct (param_is (currentMouseParam st) "h");
    [| destruct (param_is (currentMouseParam st) "sv");
       [| destruct (param_is (currentMouseParam st) "a")]].
  - unfold bind at 1 2, gets at 1, deref.
    destruct (currentHSVColor st) as [hsv |]; [| discriminate].
    intros Hrun. apply updateHSV_inv in Hrun as (rgb & _ & ->). eauto.
  - unfold bind at 1 2, gets at 1, deref.
    destruct (currentHSVColor st) as [hsv |]; [| discriminate].
    intros Hrun. apply updateHSV_inv in Hrun as (rgb & _ & ->). eauto.
  - unfold bind at 1 2, gets at 1, deref.
    destruct (currentRGBColor st) as [rgb |] eqn:Hrgb; [| discriminate].
    unfold ret, bind at 1, assign. intros Hrun.
    apply updateUIValues_true_inv in Hrun as (rgb' & hsv & _ & _ & ->).
    right. exists rgb', hsv.
    destruct st; simpl in *. reflexivity.
  - unfold ret. intros Hrun. left. congruence.
Qed.

Lemma numeric_rejected st param inputVal :
  isNullOrWhiteSpace inputVal = true
  \/ acceptsValue param (JS.parseInt inputVal) = false ->
  handleTextValueInput param inputVal st = (Some tt, st).
Proof.
  unfold handleTextValueInput, acceptsValue, JS.Number_isNaN_string.
  intros [-> | Hrange]; [reflexivity |].
  destruct (isNullOrWhiteSpace inputVal); [reflexivity |]. cbn [orb].
  destruct (includes ["r"; "g"; "b"; "a"] param).
  - now rewrite Hrange.
  - destruct (includes ["h"; "s"; "v"] param); [now rewrite Hrange |].
    reflexivity.
Qed.

Lemma numeric_accepted_inv st st' param inputVal :
  isNullOrWhiteSpace inputVal = false ->
  acceptsValue param (JS.parseInt inputVal) = true ->
  handleTextValueInput param inputVal st = (Some tt, st') ->
  exists rgb hsv, st' = committed rgb hsv st.
Proof.
  unfold handleTextValueInput, acceptsValue, JS.Number_isNaN_string.
  intros -> Hrange. cbn [orb]. cbv zeta.
  destruct (includes ["r"; "g"; "b"; "a"] param).
  - rewrite Hrange. unfold bind at 1 2, gets at 1, deref.
    destruct (currentRGBColor st) as [rgb |] eqn:Hrgb; [| discriminate].
    unfold ret, bind at 1, assign, bind at 1 2, gets at 1.
    simpl currentRGBColor. unfold deref, ret, bind at 1.
    intros Hrun.
    apply updateUIValues_true_inv in Hrun as (rgb' & hsv & _ & _ & ->).
    exists rgb', hsv. destruct st; reflexivity.
  - destruct (includes ["h"; "s"; "v"] param); [| discriminate].
    rewrite Hrange. unfold bind at 1 2, gets at 1, deref.
    destruct (currentHSVColor st) as [hsv |]; [| discriminate].
    intros Hrun. apply updateHSV_inv in Hrun as (rgb & _ & ->). eauto.
Qed.

Lemma handleTextValueInput_inv st st' param inputVal :
  handleTextValueInput param inputVal st = (Some tt, st') ->
  st' = st \/ exists rgb hsv, st' = committed rgb hsv st.
Proof.
  intros Hrun.
  destruct (isNullOrWhiteSpace inputVal) eqn:Hblank;
    [| destruct (acceptsValue param (JS.parseInt inputVal)) eqn:Hrange].
  - rewrite numeric_rejected in Hrun by now left. left. congruence.
  - right. eapply numeric_accepted_inv; eassumption.
  - rewrite numeric_rejected in Hrun by now right. left. congruence.
Qed.

Lemma acceptsValue_legal c n : acceptsValue (param_of c) n = legal c n.
Proof.
  destruct c; unfold acceptsValue; cbn [includes existsb param_of];
    simpl; rewrite ?orb_false_r; reflexivity.
Qed.

Lemma NaN_not_legal c n : JS.isNaN n = true -> legal c n = false.
Proof.
  unfold JS.isNaN, legal, JS.le.
  rewrite FloatAxioms.eqb_spec, !FloatAxioms.leb_spec. unfold SFeqb, SFleb.
  intros Hnan.
  destruct (Prim2SF n) as [sn | sn | | sn mn en] eqn:Hn;
    try (rewrite SFcompare_refl in Hnan by discriminate; discriminate).
  reflexivity.
Qed.

(** After an edit that returned, either no change was emitted or the
    colour is stored and the text value is its serialisation. *)
Lemma perform_inv st st' e :
  perform e st = (Some tt, st') ->
  emitted st' = emitted st
  \/ exists rgb,
       currentRGBColor st' = Some rgb /\ value st' = serialisation rgb.
Proof.
  destruct e as [param inputVal | param target pageX pageY
                | pageX pageY | pageX pageY]; simpl.
  - intros Hrun.
    apply handleTextValueInput_inv in Hrun as [-> | (rgb & hsv & ->)];
      [now left | right; now exists rgb].
  - unfold handleMouseDown, bind at 1 2 3, assign.
    destruct (updateFromMouseEvent pageX pageY _) as [[[] |] st1] eqn:Hrun;
      [| discriminate].
    intros [= <-].
    apply updateFromMouseEvent_inv in Hrun as [-> | (rgb & hsv & ->)];
      [now left | right; now exists rgb].
  - intros Hrun.
    apply updateFromMouseEvent_inv in Hrun as [-> | (rgb & hsv & ->)];
      [now left | right; now exists rgb].
  - unfold handleMouseUp, bind at 1.
    destruct (updateFromMouseEvent pageX pageY st) as [[[] |] st1] eqn:Hrun;
      [| discriminate].
    unfold bind, assign. intros [= <-].
    apply updateFromMouseEvent_inv in Hrun as [-> | (rgb & hsv & ->)];
      [now left | right; now exists rgb].
Qed.

(** *** The free-text field and the attachment *)

Lemma handleTextInput_refused st text :
  styleReadBack text = "" ->
  handleTextInput text st
  = (Some tt, with_proxyBackgroundColor "" (with_value text st)).
Proof.
  intros Hrefused. destruct st.
  unfold handleTextInput, isValideCSSColor, bind, assign, gets, ret.
  simpl. rewrite Hrefused. reflexivity.
Qed.

Lemma handleTextInput_accepted st text :
  styleReadBack text <> "" ->
  handleTextInput text st
  = (rgb <- (assign (with_currentRGBColor (parseColor text)) ;;
             o <- gets currentRGBColor ;; deref o) ;;
     assign (with_currentHSVColor (Some (rgbToHSV rgb))) ;;
     updateUIValues false ;;
     emit "change")
      (with_proxyBackgroundColor (styleReadBack text) (with_value text st)).
Proof.
  intros Haccepted. apply String.eqb_neq in Haccepted. destruct st.
  unfold handleTextInput, isValideCSSColor, bind, assign, gets, ret.
  simpl. rewrite Haccepted. reflexivity.
Qed.

Lemma handleTextInput_parsed st text c :
  styleReadBack text <> "" -> parseColor text = Some c ->
  handleTextInput text st
  = (Some tt,
     with_emitted (emitted st ++ ["change"])
       (snapshotted c (rgbToHSV c)
          (with_proxyBackgroundColor (styleReadBack text)
             (with_value text st)))).
Proof.
  intros Haccepted Hparsed. rewrite handleTextInput_accepted by assumption.
  destruct st. unfold bind, assign, gets, deref, ret. simpl.
  rewrite Hparsed. reflexivity.
Qed.

Lemma handleTextInput_unparsed st text :
  styleReadBack text <> "" -> parseColor text = None ->
  handleTextInput text st
  = (None,
     with_currentRGBColor None
       (with_proxyBackgroundColor (styleReadBack text)
          (with_value text st))).
Proof.
  intros Haccepted Hparsed. rewrite handleTextInput_accepted by assumption.
  destruct st. unfold bind, assign, gets, deref, ret. simpl.
  rewrite Hparsed. reflexivity.
Qed.

Lemma connectedCallback_blank st :
  isNullOrWhiteSpace (value st) = true ->
  let red := ColorRGBA64.mk 1 0 0 1 in
  connectedCallback st
  = (Some tt,
     attachedTo (snapshotted red (rgbToHSV red) (with_isOpen false st))).
Proof.
  intros Hblank. destruct st. simpl in Hblank.
  unfold connectedCallback, bind, assign, gets, deref, ret. simpl.
  rewrite Hblank. simpl. unfold attachedTo. simpl.
  now destruct autofocus0.
Qed.

Lemma connectedCallback_parsed st c :
  isNullOrWhiteSpace (value st) = false -> parseColor (value st) = Some c ->
  connectedCallback st
  = (Some tt,
     attachedTo (snapshotted c (rgbToHSV c) (with_isOpen false st))).
Proof.
  intros Hblank Hparsed. destruct st. simpl in Hblank, Hparsed.
  unfold connectedCallback, bind, assign, gets, deref, ret. simpl.
  rewrite Hblank. simpl. rewrite Hparsed. simpl. unfold attachedTo. simpl.
  now destruct autofocus0.
Qed.

Lemma connectedCallback_unparsed st :
  isNullOrWhiteSpace (value st) = false -> parseColor (value st) = None ->
  connectedCallback st
  = (None, with_currentRGBColor None (with_isOpen false st)).
Proof.
  intros Hblank Hparsed. destruct st. simpl in Hblank, Hparsed.
  unfold connectedCallback, bind, assign, gets, deref, ret. simpl.
  rewrite Hblank. simpl. rewrite Hparsed. reflexivity.
Qed.

End Runs.

(** ** The claims *)

(** C5. During a drag over the saturation-value zone, with [x] and [y]
    the clamped offsets of the pointer in a target of the given width
    and height, the new HSV colour keeps the current hue and takes
    saturation round(100 x / width) / 100 and value
    round(100 - 100 y / height) / 100; the RGBA colour is rederived from
    it with the current alpha, the snapshot is recomputed from both,
    the text value is the serialisation of the new colour and one
    change notification is added. *)
Theorem sat_val_drag_sets_whole_percent_saturation_and_value
    {lib : Collaborators} st pos rgb hsv pageX pageY :
  currentMouseTarget st = Some pos -> currentMouseParam st = Some "sv" ->
  currentRGBColor st = Some rgb -> currentHSVColor st = Some hsv ->
  let width := DOMRect.width pos in
  let height := DOMRect.height pos in
  let x := clamped (pageX - DOMRect.left pos) width in
  let y := clamped (pageY - DOMRect.top pos) height in
  let hsv' :=
    ColorHSV.mk (ColorHSV.h hsv)
      (JS.Math_round (100 * x / width) / 100)
      (JS.Math_round (100 - 100 * y / height) / 100) in
  let rgb' := hsvToRGB hsv' (ColorRGBA64.a rgb) in
  exists st',
    updateFromMouseEvent pageX pageY st = (Some tt, st')
    /\ currentHSVColor st' = Some hsv'
    /\ currentRGBColor st' = Some rgb'
    /\ uiValues st' = ColorPickerUI_new rgb' hsv'
    /\ value st' = serialisation rgb'
    /\ emitted st' = (emitted st ++ ["change"])%list.
Proof.
  intros Htarget Hparam Hrgb Hhsv width height x y.
  rewrite (mul_comm 100 x), (mul_comm 100 y).
  intros hsv' rgb'. eexists. split.
  - exact (drag_sv_run st pos rgb hsv pageX pageY Htarget Hparam Hrgb Hhsv).
  - repeat split.
Qed.

Lemma sat_val_drag_witness :
  exists st',
    updateFromMouseEvent (lib := Fixture.lib) 50 5 (Fixture.dragging "sv")
    = (Some tt, st')
    /\ currentHSVColor st' = Some (ColorHSV.mk 0 0.25 0.75)
    /\ currentRGBColor st' = Some (ColorRGBA64.mk 0.75 0.5625 0.5625 1)
    /\ uiValues st'
       = ColorPickerUI_new (lib := Fixture.lib)
           (ColorRGBA64.mk 0.75 0.5625 0.5625 1) (ColorHSV.mk 0 0.25 0.75)
    /\ value st' = "#bf8f8f"
    /\ emitted st' = ["change"].
Proof.
  exact (sat_val_drag_sets_whole_percent_saturation_and_value
           (lib := Fixture.lib) (Fixture.dragging "sv") Fixture.slider
           Fixture.red (ColorHSV.mk 0 1 1) 50 5
           eq_refl eq_refl eq_refl eq_refl).
Defined.

(** C6, as the code has it.  During a drag over the alpha zone the new
    RGBA colour has the red, green and blue channels of the current
    colour and alpha round(100 x / width) / 100, [x] being the clamped
    offset, unless that quotient is NaN, which the colour constructor
    replaces by 1; the HSV colour stays, the text value is the
    serialisation of the new colour and one change is emitted.  In
    particular a mouse-down in the alpha zone on a target 100 wide, 25 to
    the right of its left edge, makes alpha 0.25 and the text value the
    functional-notation string of (r, g, b, 0.25). *)
Theorem alpha_drag_replaces_alpha_only
    {lib : Collaborators} st pos rgb hsv pageX pageY :
  currentRGBColor st = Some rgb -> currentHSVColor st = Some hsv ->
  let r := ColorRGBA64.r rgb in
  let g := ColorRGBA64.g rgb in
  let b := ColorRGBA64.b rgb in
  (currentMouseTarget st = Some pos -> currentMouseParam st = Some "a" ->
   let width := DOMRect.width pos in
   let x := clamped (pageX - DOMRect.left pos) width in
   let alpha := JS.Math_round (100 * x / width) / 100 in
   let rgb' := ColorRGBA64.mk r g b (if JS.isNaN alpha then 1 else alpha) in
   exists st',
     updateFromMouseEvent pageX pageY st = (Some tt, st')
     /\ currentRGBColor st' = Some rgb'
     /\ currentHSVColor st' = Some hsv
     /\ uiValues st' = ColorPickerUI_new rgb' hsv
     /\ value st' = serialisation rgb'
     /\ emitted st' = (emitted st ++ ["change"])%list)
  /\
  (DOMRect.width pos = 100 -> pageX - DOMRect.left pos = 25 ->
   exists st',
     handleMouseDown "a" pos pageX pageY st = (Some tt, st')
     /\ currentRGBColor st' = Some (ColorRGBA64.mk r g b 0.25)
     /\ value st' = toStringWebRGBA (ColorRGBA64.mk r g b 0.25)
     /\ emitted st' = (emitted st ++ ["change"])%list).
Proof.
  intros Hrgb Hhsv r g b. split.
  - intros Htarget Hparam width x. rewrite (mul_comm 100 x).
    intros alpha rgb'. eexists. split.
    + exact (drag_a_run st pos rgb hsv pageX pageY Htarget Hparam Hrgb Hhsv).
    + repeat split.
  - intros Hwidth Hoffset.
    pose proof (drag_a_run
                  (with_currentMouseParam (Some "a")
                     (with_currentMouseTarget (Some pos) st))
                  pos rgb hsv pageX pageY eq_refl eq_refl Hrgb Hhsv) as Hrun.
    unfold percentAcross in Hrun. rewrite Hwidth, Hoffset in Hrun.
    change (JS.Math_round (clamped 25 100 * 100 / 100) / 100) with 0.25 in Hrun.
    unfold handleMouseDown, bind, assign. simpl. rewrite Hrun. simpl.
    eexists. split; [reflexivity |]. repeat split.
Qed.

Lemma alpha_drag_witness :
  (exists st',
     updateFromMouseEvent (lib := Fixture.lib) 50 0 (Fixture.dragging "a")
     = (Some tt, st')
     /\ currentRGBColor st' = Some (ColorRGBA64.mk 1 0 0 0.25)
     /\ currentHSVColor st' = Some (ColorHSV.mk 0 1 1)
     /\ uiValues st'
        = ColorPickerUI_new (lib := Fixture.lib)
            (ColorRGBA64.mk 1 0 0 0.25) (ColorHSV.mk 0 1 1)
     /\ value st' = "rgba(255,0,0,0.25)"
     /\ emitted st' = ["change"])
  /\
  (exists st',
     handleMouseDown (lib := Fixture.lib) "a" (DOMRect.mk 0 0 100 10) 25 0
       Fixture.attached
     = (Some tt, st')
     /\ currentRGBColor st' = Some (ColorRGBA64.mk 1 0 0 0.25)
     /\ value st' = "rgba(255,0,0,0.25)"
     /\ emitted st' = ["change"]).
Proof.
  split.
  - exact (proj1 (alpha_drag_replaces_alpha_only
                    (lib := Fixture.lib) (Fixture.dragging "a")
                    Fixture.slider Fixture.red (ColorHSV.mk 0 1 1)
                    50 0 eq_refl eq_refl) eq_refl eq_refl).
  - exact (proj2 (alpha_drag_replaces_alpha_only
                    (lib := Fixture.lib) Fixture.attached
                    (DOMRect.mk 0 0 100 10) Fixture.red (ColorHSV.mk 0 1 1)
                    25 0 eq_refl eq_refl) eq_refl eq_refl).
Defined.

(** C6, as stated, fails: over a box without width the quotient
    round(100 x / width) / 100 is NaN, and the alpha stored is 1, with the
    hex string as the text value. *)
Lemma alpha_drag_over_empty_box_stores_one :
  let pos := DOMRect.mk 10 10 0 20 in
  let st := with_currentMouseTarget (Some pos) (Fixture.dragging "a") in
  let st' := snd (updateFromMouseEvent (lib := Fixture.lib) 30 4 st) in
  JS.Math_round (100 * clamped (30 - 10) 0 / 0) / 100 = nan
  /\ fst (updateFromMouseEvent (lib := Fixture.lib) 30 4 st) = Some tt
  /\ currentRGBColor st' = Some (ColorRGBA64.mk 1 0 0 1)
  /\ ColorRGBA64.mk 1 0 0 1 <> ColorRGBA64.mk 1 0 0 nan
  /\ value st' = "#ff0000".
Proof.
  repeat split.
  intros Hsame.
  apply (f_equal (fun c => JS.isNaN (ColorRGBA64.a c))) in Hsame.
  discriminate Hsame.
Qed.

(** C9, as the code has it.  A drag over a target whose bounding box has
    no width divides by zero: the clamped offset is a zero (or NaN), the
    quotient is NaN, and NaN is stored as the hue in the hue zone and as
    the saturation in the saturation-value zone; a box without height
    stores NaN as the value in the saturation-value zone.  In the alpha
    zone the alpha computed is NaN as well, but the colour constructor
    stores 1 in its place.  The handler returns normally each time and
    emits its change. *)
Theorem drag_over_empty_box_commits_NaN
    {lib : Collaborators} st pos rgb hsv pageX pageY :
  currentMouseTarget st = Some pos ->
  currentRGBColor st = Some rgb -> currentHSVColor st = Some hsv ->
  (DOMRect.width pos = 0 -> currentMouseParam st = Some "h" ->
   exists st' hsv',
     updateFromMouseEvent pageX pageY st = (Some tt, st')
     /\ currentHSVColor st' = Some hsv' /\ ColorHSV.h hsv' = nan
     /\ emitted st' = (emitted st ++ ["change"])%list)
  /\
  (DOMRect.width pos = 0 -> currentMouseParam st = Some "sv" ->
   exists st' hsv',
     updateFromMouseEvent pageX pageY st = (Some tt, st')
     /\ currentHSVColor st' = Some hsv' /\ ColorHSV.s hsv' = nan
     /\ emitted st' = (emitted st ++ ["change"])%list)
  /\
  (DOMRect.height pos = 0 -> currentMouseParam st = Some "sv" ->
   exists st' hsv',
     updateFromMouseEvent pageX pageY st = (Some tt, st')
     /\ currentHSVColor st' = Some hsv' /\ ColorHSV.v hsv' = nan
     /\ emitted st' = (emitted st ++ ["change"])%list)
  /\
  (DOMRect.width pos = 0 -> currentMouseParam st = Some "a" ->
   let x := clamped (pageX - DOMRect.left pos) 0 in
   JS.Math_round (100 * x / 0) / 100 = nan
   /\ exists st',
       updateFromMouseEvent pageX pageY st = (Some tt, st')
       /\ currentRGBColor st'
          = Some (ColorRGBA64.mk (ColorRGBA64.r rgb) (ColorRGBA64.g rgb)
                    (ColorRGBA64.b rgb) 1)
       /\ emitted st' = (emitted st ++ ["change"])%list).
Proof.
  intros Htarget Hrgb Hhsv. split; [| split; [| split]].
  - intros Hwidth Hparam. do 2 eexists. split.
    + exact (drag_h_run st pos rgb hsv pageX pageY Htarget Hparam Hrgb Hhsv).
    + repeat split. simpl. unfold hueAt. rewrite Hwidth.
      apply hue_over_zero_width.
  - intros Hwidth Hparam. do 2 eexists. split.
    + exact (drag_sv_run st pos rgb hsv pageX pageY Htarget Hparam Hrgb Hhsv).
    + repeat split. simpl. unfold percentAcross. rewrite Hwidth.
      apply percent_over_zero_width.
  - intros Hheight Hparam. do 2 eexists. split.
    + exact (drag_sv_run st pos rgb hsv pageX pageY Htarget Hparam Hrgb Hhsv).
    + repeat split. simpl. unfold percentUp. rewrite Hheight.
      apply percent_over_zero_height.
  - intros Hwidth Hparam x. split.
    + rewrite mul_comm. apply percent_over_zero_width.
    + eexists. split.
      * exact (drag_a_run st pos rgb hsv pageX pageY
                 Htarget Hparam Hrgb Hhsv).
      * split; [| reflexivity]. simpl. unfold percentAcross.
        rewrite Hwidth. now rewrite percent_over_zero_width.
Qed.

Lemma drag_over_empty_box_witness :
  (exists st' hsv',
     updateFromMouseEvent (lib := Fixture.lib) 30 4
       (with_currentMouseTarget (Some (DOMRect.mk 10 10 0 20))
          (Fixture.dragging "h"))
     = (Some tt, st')
     /\ currentHSVColor st' = Some hsv' /\ ColorHSV.h hsv' = nan
     /\ emitted st' = ["change"])
  /\
  (JS.Math_round (100 * clamped (30 - 10) 0 / 0) / 100 = nan
   /\ exists st',
       updateFromMouseEvent (lib := Fixture.lib) 30 4
         (with_currentMouseTarget (Some (DOMRect.mk 10 10 0 20))
            (Fixture.dragging "a"))
       = (Some tt, st')
       /\ currentRGBColor st' = Some (ColorRGBA64.mk 1 0 0 1)
       /\ emitted st' = ["change"]).
Proof.
  split.
  - exact (proj1 (drag_over_empty_box_commits_NaN
                    (lib := Fixture.lib)
                    (with_currentMouseTarget (Some (DOMRect.mk 10 10 0 20))
                       (Fixture.dragging "h"))
                    (DOMRect.mk 10 10 0 20) Fixture.red (ColorHSV.mk 0 1 1)
                    30 4 eq_refl eq_refl eq_refl) eq_refl eq_refl).
  - exact (proj2 (proj2 (proj2 (drag_over_empty_box_commits_NaN
                    (lib := Fixture.lib)
                    (with_currentMouseTarget (Some (DOMRect.mk 10 10 0 20))
                       (Fixture.dragging "a"))
                    (DOMRect.mk 10 10 0 20) Fixture.red (ColorHSV.mk 0 1 1)
                    30 4 eq_refl eq_refl eq_refl))) eq_refl eq_refl).
Defined.

(** C9, as stated, fails in the alpha zone: over a box without width the
    alpha committed is a number, 1, and the text value the hex string. *)
Lemma alpha_committed_over_empty_box_is_a_number :
  let pos := DOMRect.mk 10 10 0 20 in
  let st := with_currentMouseTarget (Some pos) (Fixture.dragging "a") in
  exists st' c,
    updateFromMouseEvent (lib := Fixture.lib) 30 4 st = (Some tt, st')
    /\ currentRGBColor st' = Some c
    /\ JS.isNaN (ColorRGBA64.a c) = false
    /\ ColorRGBA64.a c = 1
    /\ value st' = "#ff0000".
Proof.
  intros pos st.
  exists (snd (updateFromMouseEvent (lib := Fixture.lib) 30 4 st)),
    (ColorRGBA64.mk 1 0 0 1).
  repeat split.
Qed.

(** C7. The local offsets x = pageX - left and y = pageY - top are
    clamped before any colour is computed: two pointer positions with the
    same clamped offsets leave the element in the same state; over a box
    whose width and height are not negative the clamped offsets lie in
    [0, width] and [0, height]; and a pointer left of the box, at x = -50
    say, gives exactly the state a pointer at x = 0 gives. *)
Theorem drag_offsets_are_clamped
    {lib : Collaborators} st pos pageX pageY pageX' pageY' :
  currentMouseTarget st = Some pos ->
  let x := pageX - DOMRect.left pos in
  let y := pageY - DOMRect.top pos in
  let x' := pageX' - DOMRect.left pos in
  let y' := pageY' - DOMRect.top pos in
  let width := DOMRect.width pos in
  let height := DOMRect.height pos in
  (clamped x' width = clamped x width ->
   clamped y' height = clamped y height ->
   updateFromMouseEvent pageX' pageY' st = updateFromMouseEvent pageX pageY st)
  /\
  (JS.le 0 width = true -> JS.isNaN x = false ->
   JS.le 0 (clamped x width) = true /\ JS.le (clamped x width) width = true)
  /\
  (JS.le 0 height = true -> JS.isNaN y = false ->
   JS.le 0 (clamped y height) = true /\ JS.le (clamped y height) height = true)
  /\
  (JS.lt x 0 = true -> x' = 0 ->
   updateFromMouseEvent pageX pageY st = updateFromMouseEvent pageX' pageY st).
Proof.
  intros Htarget x y x' y' width height. repeat split.
  - intros Hx Hy.
    rewrite !(updateFromMouseEvent_clamped st pos) by assumption.
    fold x y x' y' width height. now rewrite Hx, Hy.
  - now apply clamped_range.
  - now apply clamped_range.
  - now apply clamped_range.
  - now apply clamped_range.
  - intros Hneg Hzero.
    rewrite !(updateFromMouseEvent_clamped st pos) by assumption.
    fold x x' width. rewrite Hzero, clamped_at_zero.
    now rewrite (clamped_negative x width Hneg).
Qed.

Lemma drag_offsets_witness :
  updateFromMouseEvent (lib := Fixture.lib) (-50) 7 (Fixture.dragging "h")
  = updateFromMouseEvent (lib := Fixture.lib) 0 7 (Fixture.dragging "h").
Proof.
  exact (proj2 (proj2 (proj2 (drag_offsets_are_clamped
                  (lib := Fixture.lib) (Fixture.dragging "h") Fixture.slider
                  (-50) 7 0 7 eq_refl))) eq_refl eq_refl).
Defined.

(** C8. For each of the three zones and every pointer position, a second
    [updateFromMouseEvent] with the same position, the target's box being
    the same, returns and leaves the RGBA colour, the HSV colour, the UI
    snapshot and the text value as the first left them.  The conversion
    from HSV is taken to return the alpha it is given. *)
Theorem drag_update_is_idempotent
    {lib : Collaborators} st st1 zone pageX pageY :
  (forall c alpha, ColorRGBA64.a (hsvToRGB c alpha) = alpha) ->
  currentMouseParam st = Some zone -> In zone ["h"; "sv"; "a"] ->
  updateFromMouseEvent pageX pageY st = (Some tt, st1) ->
  exists st2,
    updateFromMouseEvent pageX pageY st1 = (Some tt, st2)
    /\ currentRGBColor st2 = currentRGBColor st1
    /\ currentHSVColor st2 = currentHSVColor st1
    /\ uiValues st2 = uiValues st1
    /\ value st2 = value st1.
Proof.
  intros Halpha Hparam Hzone Hrun.
  destruct (drag_returns_inv st st1 zone pageX pageY Hparam Hzone Hrun)
    as (pos & rgb & hsv & Htarget & Hrgb & Hhsv).
  destruct Hzone as [<- | [<- | [<- | []]]].
  - rewrite (drag_h_run st pos rgb hsv pageX pageY) in Hrun by assumption.
    injection Hrun as <-. eexists. split.
    + apply (drag_h_run _ pos); simpl; solve [assumption | reflexivity].
    + simpl. rewrite Halpha. repeat split.
  - rewrite (drag_sv_run st pos rgb hsv pageX pageY) in Hrun by assumption.
    injection Hrun as <-. eexists. split.
    + apply (drag_sv_run _ pos); simpl; solve [assumption | reflexivity].
    + simpl. rewrite Halpha. repeat split.
  - rewrite (drag_a_run st pos rgb hsv pageX pageY) in Hrun by assumption.
    injection Hrun as <-. eexists. split.
    + apply (drag_a_run _ pos); simpl; solve [assumption | reflexivity].
    + simpl. repeat split.
Qed.

Lemma drag_update_is_idempotent_witness :
  exists st2,
    updateFromMouseEvent (lib := Fixture.lib) 50 5
      (snd (updateFromMouseEvent (lib := Fixture.lib) 50 5
              (Fixture.dragging "sv")))
    = (Some tt, st2)
    /\ currentRGBColor st2 = Some (ColorRGBA64.mk 0.75 0.5625 0.5625 1)
    /\ currentHSVColor st2 = Some (ColorHSV.mk 0 0.25 0.75)
    /\ uiValues st2
       = ColorPickerUI_new (lib := Fixture.lib)
           (ColorRGBA64.mk 0.75 0.5625 0.5625 1) (ColorHSV.mk 0 0.25 0.75)
    /\ value st2 = "#bf8f8f".
Proof.
  exact (drag_update_is_idempotent
           (lib := Fixture.lib) (Fixture.dragging "sv")
           (snd (updateFromMouseEvent (lib := Fixture.lib) 50 5
                   (Fixture.dragging "sv")))
           "sv" 50 5
           (fun _ _ => eq_refl) eq_refl (or_intror (or_introl eq_refl))
           eq_refl).
Defined.

(** C4, as the code has it.  After a numeric field edit or a mouse event
    that commits (it returns and emits its change) the RGBA colour is
    stored and the text value is its hex serialisation when its alpha
    equals 1 and its functional-notation serialisation when its alpha
    differs from 1.  After a free-text edit that returns, the text value
    is the string as typed, whatever the colour read from it. *)
Theorem committed_text_is_the_serialisation
    {lib : Collaborators} st st' :
  (forall e,
     perform e st = (Some tt, st') -> emitted st' <> emitted st ->
     exists c,
       currentRGBColor st' = Some c
       /\ (JS.neq (ColorRGBA64.a c) 1 = false -> value st' = toStringHexRGB c)
       /\ (JS.neq (ColorRGBA64.a c) 1 = true ->
           value st' = toStringWebRGBA c))
  /\ (forall text,
        handleTextInput text st = (Some tt, st') -> value st' = text).
Proof.
  split.
  - intros e Hrun Hemitted.
    destruct (perform_inv st st' e Hrun) as [Hsame | (c & Hc & Hvalue)];
      [contradiction |].
    exists c. rewrite Hvalue. unfold serialisation.
    split; [assumption |]. split; intros ->; reflexivity.
  - intros text Hrun.
    destruct (String.eqb_spec (styleReadBack text) "")
      as [Hrefused | Haccepted];
      [| destruct (parseColor text) as [c |] eqn:Hparsed].
    + rewrite (handleTextInput_refused st text Hrefused) in Hrun.
      now injection Hrun as <-.
    + rewrite (handleTextInput_parsed st text c Haccepted Hparsed) in Hrun.
      now injection Hrun as <-.
    + rewrite (handleTextInput_unparsed st text Haccepted Hparsed) in Hrun.
      discriminate.
Qed.

Lemma committed_text_witness :
  (exists c,
     currentRGBColor
       (snd (perform (lib := Fixture.lib) (NumericField "g" "128")
               Fixture.attached))
     = Some c
     /\ (JS.neq (ColorRGBA64.a c) 1 = false ->
         value (snd (perform (lib := Fixture.lib) (NumericField "g" "128")
                       Fixture.attached))
         = toStringHexRGB (Collaborators := Fixture.lib) c)
     /\ (JS.neq (ColorRGBA64.a c) 1 = true ->
         value (snd (perform (lib := Fixture.lib) (NumericField "g" "128")
                       Fixture.attached))
         = toStringWebRGBA (Collaborators := Fixture.lib) c))
  /\ value (snd (handleTextInput (lib := Fixture.lib) "blue" Fixture.attached))
     = "blue".
Proof.
  split.
  - apply (proj1 (committed_text_is_the_serialisation
                    (lib := Fixture.lib) Fixture.attached _)
             (NumericField "g" "128") eq_refl).
    vm_compute. discriminate.
  - exact (proj2 (committed_text_is_the_serialisation
                    (lib := Fixture.lib) Fixture.attached _)
             "blue" eq_refl).
Defined.

(** C4, as stated, fails after a free-text edit: typing "red" returns,
    stores opaque red, whose alpha is 1, and emits its change, and the
    text value is "red", not the hex serialisation "#ff0000". *)
Lemma typed_text_is_not_the_serialisation :
  let result := handleTextInput (lib := Fixture.lib) "red" Fixture.attached in
  fst result = Some tt
  /\ emitted (snd result) = ["change"]
  /\ currentRGBColor (snd result) = Some (ColorRGBA64.mk 1 0 0 1)
  /\ JS.neq (ColorRGBA64.a (ColorRGBA64.mk 1 0 0 1)) 1 = false
  /\ toStringHexRGB (Collaborators := Fixture.lib) (ColorRGBA64.mk 1 0 0 1)
     = "#ff0000"
  /\ value (snd result) = "red"
  /\ value (snd result)
     <> toStringHexRGB (Collaborators := Fixture.lib)
          (ColorRGBA64.mk 1 0 0 1).
Proof. repeat split. discriminate. Qed.

(** C3, where the code departs from it.  The test for a string that is
    not numeric is [Number.isNaN] applied to the string itself, which is
    false for every string, so a string that is not a number and begins
    with one is read by [parseInt] up to the first other character and
    committed: "12abc" in the field r is not a no-op, it stores 12 / 255
    as the red channel and emits a change. *)
Theorem numeric_prefix_is_committed
    {lib : Collaborators} st rgb hsv :
  currentRGBColor st = Some rgb -> currentHSVColor st = Some hsv ->
  JS.Number_isNaN_string "12abc" = false
  /\ JS.parseInt "12abc" = 12
  /\ exists st',
      handleTextValueInput "r" "12abc" st = (Some tt, st')
      /\ st' <> st
      /\ currentRGBColor st'
         = Some (ColorRGBA64.new (12 / 255) (ColorRGBA64.g rgb)
                   (ColorRGBA64.b rgb) (Some (ColorRGBA64.a rgb)))
      /\ emitted st' = (emitted st ++ ["change"])%list.
Proof.
  intros Hrgb Hhsv. split; [reflexivity |]. split; [reflexivity |].
  pose (rgb' := ColorRGBA64.new (12 / 255) (ColorRGBA64.g rgb)
                 (ColorRGBA64.b rgb) (Some (ColorRGBA64.a rgb))).
  exists (committed rgb' (rgbToHSV rgb') st). split; [| split].
  - unfold handleTextValueInput.
    change (JS.parseInt "12abc") with 12. cbv zeta.
    change (isNullOrWhiteSpace "12abc") with false.
    destruct st; simpl in *; subst; reflexivity.
  - apply committed_differs.
  - split; reflexivity.
Qed.

Lemma numeric_prefix_witness :
  JS.Number_isNaN_string "12abc" = false
  /\ JS.parseInt "12abc" = 12
  /\ exists st',
      handleTextValueInput (lib := Fixture.lib) "r" "12abc" Fixture.attached
      = (Some tt, st')
      /\ st' <> Fixture.attached
      /\ currentRGBColor st' = Some (ColorRGBA64.mk (12 / 255) 0 0 1)
      /\ emitted st' = ["change"].
Proof.
  exact (numeric_prefix_is_committed (lib := Fixture.lib)
           Fixture.attached Fixture.red (ColorHSV.mk 0 1 1)
           eq_refl eq_refl).
Defined.

(** C1, as the code has it.  For every string that is blank or that the
    browser does not take for a colour, the free-text edit returns, emits
    nothing and leaves the whole element as it was, but for two fields:
    the text value, assigned before the string is validated, becomes the
    string, and the background colour of the proxy, on which the string
    is tried, is left empty.  The browser is taken to refuse blank
    strings. *)
Theorem refused_text_keeps_the_colour
    {lib : Collaborators} st text :
  (forall t, isNullOrWhiteSpace t = true -> styleReadBack t = "") ->
  isNullOrWhiteSpace text = true \/ styleReadBack text = "" ->
  exists st',
    handleTextInput text st = (Some tt, st')
    /\ st' = with_proxyBackgroundColor "" (with_value text st)
    /\ value st' = text
    /\ proxyBackgroundColor st' = ""
    /\ currentRGBColor st' = currentRGBColor st
    /\ currentHSVColor st' = currentHSVColor st
    /\ uiValues st' = uiValues st
    /\ emitted st' = emitted st
    /\ autofocus st' = autofocus st
    /\ isOpen st' = isOpen st
    /\ isMouseActive st' = isMouseActive st
    /\ currentMouseTarget st' = currentMouseTarget st
    /\ currentMouseParam st' = currentMouseParam st
    /\ proxyType st' = proxyType st
    /\ queuedUpdates st' = queuedUpdates st.
Proof.
  intros Hblank Htext.
  assert (Hrefused : styleReadBack text = "") by (destruct Htext; auto).
  eexists. split; [exact (handleTextInput_refused st text Hrefused) |].
  repeat split.
Qed.

Lemma blank_is_refused_by_fixture (t : string) :
  isNullOrWhiteSpace t = true -> Fixture.styleReadBack t = "".
Proof.
  intros Hblank. unfold Fixture.styleReadBack.
  repeat match goal with
         | |- context [String.eqb t ?lit] =>
             destruct (String.eqb_spec t lit) as [-> | _]; [discriminate |]
         end.
  reflexivity.
Qed.

Lemma refused_text_witness :
  exists st',
    handleTextInput (lib := Fixture.lib) "not-a-color" Fixture.attached
    = (Some tt, st')
    /\ st' = with_proxyBackgroundColor "" (with_value "not-a-color"
                                             Fixture.attached)
    /\ value st' = "not-a-color"
    /\ proxyBackgroundColor st' = ""
    /\ currentRGBColor st' = Some Fixture.red
    /\ currentHSVColor st' = Some (ColorHSV.mk 0 1 1)
    /\ uiValues st' = uiValues Fixture.attached
    /\ emitted st' = []
    /\ autofocus st' = false
    /\ isOpen st' = false
    /\ isMouseActive st' = false
    /\ currentMouseTarget st' = None
    /\ currentMouseParam st' = None
    /\ proxyType st' = Some "colorpicker"
    /\ queuedUpdates st' = [].
Proof.
  exact (refused_text_keeps_the_colour
           (lib := Fixture.lib) Fixture.attached "not-a-color"
           blank_is_refused_by_fixture (or_intror eq_refl)).
Defined.

(** C1, as stated, fails: the string "not-a-color" is refused, and the
    element is not as it was, its text value now being that string; and
    refused after a string that was accepted, it empties the background
    colour the proxy had kept from that one. *)
Lemma refused_text_replaces_the_value :
  styleReadBack (Collaborators := Fixture.lib) "not-a-color" = ""
  /\ value Fixture.attached = "#ff0000"
  /\ handleTextInput (lib := Fixture.lib) "not-a-color" Fixture.attached
     <> (Some tt, Fixture.attached)
  /\ value (snd (handleTextInput (lib := Fixture.lib) "not-a-color"
                   Fixture.attached))
     = "not-a-color"
  /\ let typed :=
       snd (handleTextInput (lib := Fixture.lib) "red" Fixture.attached) in
     proxyBackgroundColor typed = "red"
     /\ proxyBackgroundColor
          (snd (handleTextInput (lib := Fixture.lib) "not-a-color" typed))
        = "".
Proof.
  repeat split.
  intros Hsame.
  apply (f_equal (fun result => value (snd result))) in Hsame.
  discriminate Hsame.
Qed.

(** C10, where the code departs from it.  For every string the browser
    takes for a colour, the free-text edit leaves the text value exactly
    the string as typed and stores what the parser makes of it.  When the
    parser reads the string, the handler returns, the HSV colour and the
    snapshot follow the parsed colour and exactly one change is emitted.
    When the parser returns [null] for it, as it does for
    "hsl(0, 100%, 50%)", the handler throws on deriving the HSV colour:
    the HSV colour and the snapshot stay and no change is emitted. *)
Theorem valid_text_notifies_only_when_parsed
    {lib : Collaborators} st text :
  styleReadBack text <> "" ->
  let result := handleTextInput text st in
  fst (isValideCSSColor text (with_value text st)) = Some true
  /\ value (snd result) = text
  /\ currentRGBColor (snd result) = parseColor text
  /\ match parseColor text with
     | Some c =>
         fst result = Some tt
         /\ currentHSVColor (snd result) = Some (rgbToHSV c)
         /\ uiValues (snd result) = ColorPickerUI_new c (rgbToHSV c)
         /\ emitted (snd result) = (emitted st ++ ["change"])%list
     | None =>
         fst result = None
         /\ currentHSVColor (snd result) = currentHSVColor st
         /\ uiValues (snd result) = uiValues st
         /\ emitted (snd result) = emitted st
     end.
Proof.
  intros Haccepted result. subst result. split.
  - unfold isValideCSSColor, bind, assign, gets, ret. simpl.
    destruct (String.eqb_spec (styleReadBack text) "");
      [contradiction | reflexivity].
  - destruct (parseColor text) as [c |] eqn:Hparsed.
    + rewrite (handleTextInput_parsed st text c Haccepted Hparsed).
      repeat split.
    + rewrite (handleTextInput_unparsed st text Haccepted Hparsed).
      repeat split.
Qed.

Lemma valid_text_witness :
  let text := "hsl(0, 100%, 50%)" in
  let result := handleTextInput (lib := Fixture.lib) text Fixture.attached in
  fst (isValideCSSColor (lib := Fixture.lib) text
         (with_value text Fixture.attached))
  = Some true
  /\ value (snd result) = text
  /\ currentRGBColor (snd result) = None
  /\ fst result = None
  /\ currentHSVColor (snd result) = Some (ColorHSV.mk 0 1 1)
  /\ uiValues (snd result) = uiValues Fixture.attached
  /\ emitted (snd result) = [].
Proof.
  refine (valid_text_notifies_only_when_parsed
            (lib := Fixture.lib) Fixture.attached "hsl(0, 100%, 50%)" _).
  vm_compute. discriminate.
Defined.

(** C2, where the code departs from it.  When the text value is not blank
    and the parser cannot read it, [connectedCallback] stores [null] as
    the RGBA colour and throws on deriving the HSV colour from it: no
    opaque red, no HSV colour and no snapshot. *)
Theorem attach_with_unreadable_value_throws
    {lib : Collaborators} st :
  isNullOrWhiteSpace (value st) = false -> parseColor (value st) = None ->
  exists st',
    connectedCallback st = (None, st')
    /\ currentRGBColor st' = None
    /\ currentHSVColor st' = currentHSVColor st
    /\ uiValues st' = uiValues st
    /\ proxyType st' = proxyType st.
Proof.
  intros Hblank Hparsed.
  eexists. split; [exact (connectedCallback_unparsed st Hblank Hparsed) |].
  repeat split.
Qed.

Lemma attach_with_unreadable_value_witness :
  exists st',
    connectedCallback (lib := Fixture.lib)
      (constructed (lib := Fixture.lib) "not-a-color" false)
    = (None, st')
    /\ currentRGBColor st' = None
    /\ currentHSVColor st' = None
    /\ uiValues st'
       = ColorPickerUI_new (lib := Fixture.lib)
           (ColorRGBA64.mk 1 0 0 1) (ColorHSV.mk 0 1 1)
    /\ proxyType st' = None.
Proof.
  exact (attach_with_unreadable_value_throws
           (lib := Fixture.lib)
           (constructed (lib := Fixture.lib) "not-a-color" false)
           eq_refl eq_refl).
Defined.

(** ** Further properties of the handlers *)

(** *** Attaching *)

(** X1. [connectedCallback], whether it returns or throws, closes the colour
    UI and leaves the text value, the event log and the drag state as
    they were: attaching is never seen as an edit. *)
Theorem attach_never_notifies {lib : Collaborators} st :
  let st' := snd (connectedCallback st) in
  value st' = value st
  /\ emitted st' = emitted st
  /\ isOpen st' = false
  /\ isMouseActive st' = isMouseActive st
  /\ currentMouseTarget st' = currentMouseTarget st
  /\ currentMouseParam st' = currentMouseParam st.
Proof.
  destruct (isNullOrWhiteSpace (value st)) eqn:Hblank.
  - rewrite (connectedCallback_blank st Hblank). unfold attachedTo. simpl.
    destruct (autofocus st); repeat split.
  - destruct (parseColor (value st)) as [c |] eqn:Hparsed.
    + rewrite (connectedCallback_parsed st c Hblank Hparsed).
      unfold attachedTo. simpl. destruct (autofocus st); repeat split.
    + rewrite (connectedCallback_unparsed st Hblank Hparsed). repeat split.
Qed.

(** X2. When the text value is blank, or is a string the parser reads,
    [connectedCallback] returns with opaque red, respectively the parsed
    colour, stored, the HSV colour derived from it, the snapshot computed
    from both, the proxy typed [colorpicker], and one focus callback
    added to the update queue when the element has the [autofocus]
    attribute, none otherwise. *)
Theorem attach_stores_the_colour {lib : Collaborators} st c :
  (isNullOrWhiteSpace (value st) = true /\ c = ColorRGBA64.mk 1 0 0 1)
  \/ (isNullOrWhiteSpace (value st) = false
      /\ parseColor (value st) = Some c) ->
  exists st',
    connectedCallback st = (Some tt, st')
    /\ currentRGBColor st' = Some c
    /\ currentHSVColor st' = Some (rgbToHSV c)
    /\ uiValues st' = ColorPickerUI_new c (rgbToHSV c)
    /\ proxyType st' = Some "colorpicker"
    /\ queuedUpdates st'
       = if autofocus st
         then (queuedUpdates st ++ [callFocus])%list
         else queuedUpdates st.
Proof.
  intros [[Hblank ->] | [Hblank Hparsed]]; eexists; (split;
    [ first [ exact (connectedCallback_blank st Hblank)
            | exact (connectedCallback_parsed st c Hblank Hparsed) ]
    | unfold attachedTo; simpl; destruct (autofocus st); repeat split ]).
Qed.

Lemma attach_stores_the_colour_witness :
  (exists st',
     connectedCallback (lib := Fixture.lib)
       (constructed (lib := Fixture.lib) "  " true)
     = (Some tt, st')
     /\ currentRGBColor st' = Some Fixture.red
     /\ currentHSVColor st' = Some (ColorHSV.mk 0 1 1)
     /\ uiValues st'
        = ColorPickerUI_new (lib := Fixture.lib)
            Fixture.red (ColorHSV.mk 0 1 1)
     /\ proxyType st' = Some "colorpicker"
     /\ queuedUpdates st' = [callFocus])
  /\
  (exists st',
     connectedCallback (lib := Fixture.lib)
       (constructed (lib := Fixture.lib) "blue" false)
     = (Some tt, st')
     /\ currentRGBColor st' = Some Fixture.blue
     /\ currentHSVColor st' = Some (ColorHSV.mk 240 1 1)
     /\ uiValues st'
        = ColorPickerUI_new (lib := Fixture.lib)
            Fixture.blue (ColorHSV.mk 240 1 1)
     /\ proxyType st' = Some "colorpicker"
     /\ queuedUpdates st' = []).
Proof.
  split.
  - exact (attach_stores_the_colour (lib := Fixture.lib)
             (constructed (lib := Fixture.lib) "  " true) Fixture.red
             (or_introl (conj eq_refl eq_refl))).
  - exact (attach_stores_the_colour (lib := Fixture.lib)
             (constructed (lib := Fixture.lib) "blue" false) Fixture.blue
             (or_intror (conj eq_refl eq_refl))).
Defined.

(** X3. Attaching a second time ends as the first time did, returning
    or throwing, and in the state the first left, but for the update
    queue: when the attachment returns on an element with the [autofocus]
    attribute, one more focus callback is queued. *)
Theorem second_attach_only_queues_another_focus
    {lib : Collaborators} st :
  let first := connectedCallback st in
  connectedCallback (snd first)
  = (fst first,
     match fst first with
     | Some _ =>
         if autofocus st
         then with_queuedUpdates
                (queuedUpdates (snd first) ++ [callFocus]) (snd first)
         else snd first
     | None => snd first
     end).
Proof.
  destruct (isNullOrWhiteSpace (value st)) eqn:Hblank.
  - rewrite (connectedCallback_blank st Hblank). cbv zeta. unfold snd, fst.
    rewrite connectedCallback_blank
      by (unfold attachedTo; simpl; destruct (autofocus st); exact Hblank).
    destruct st as [? [] ? ? ? ? ? ? ? ? ? ? ?]; reflexivity.
  - destruct (parseColor (value st)) as [c |] eqn:Hparsed.
    + rewrite (connectedCallback_parsed st c Hblank Hparsed).
      cbv zeta. unfold snd, fst.
      rewrite (connectedCallback_parsed _ c)
        by (unfold attachedTo; simpl; destruct (autofocus st); assumption).
      destruct st as [? [] ? ? ? ? ? ? ? ? ? ? ?]; reflexivity.
    + rewrite (connectedCallback_unparsed st Hblank Hparsed).
      cbv zeta. unfold snd, fst.
      rewrite connectedCallback_unparsed by assumption.
      destruct st; reflexivity.
Qed.

(** *** How an edit can end *)

Section Outcomes.

Context {lib : Collaborators}.

Lemma updateUIValues_true_throws st :
  currentRGBColor st = None \/ currentHSVColor st = None ->
  updateUIValues true st = (None, st).
Proof.
  destruct st as [? ? ? ? ? ? ? [rgb |] [hsv |] ? ? ? ?]; simpl;
    intros [Hnone | Hnone]; try discriminate; reflexivity.
Qed.

Lemma updateHSV_throws st hue sat val :
  currentRGBColor st = None ->
  updateHSV hue sat val st
  = (None, with_currentHSVColor (Some (ColorHSV.mk hue sat val)) st).
Proof. destruct st; simpl; intros ->; reflexivity. Qed.

Lemma updateHSV_outcome st hue sat val :
  outcome st (updateHSV hue sat val st).
Proof.
  destruct (currentRGBColor st) as [rgb |] eqn:Hrgb.
  - right; left. do 2 eexists. split; [congruence |].
    exact (updateHSV_run st rgb hue sat val Hrgb).
  - right; right; right; left. eexists. split; [assumption |].
    exact (updateHSV_throws st hue sat val Hrgb).
Qed.

Lemma updateFromMouseEvent_no_target st pageX pageY :
  currentMouseTarget st = None ->
  updateFromMouseEvent pageX pageY st = (None, st).
Proof. destruct st; simpl; intros ->; reflexivity. Qed.

Lemma updateFromMouseEvent_outcome st pageX pageY :
  outcome st (updateFromMouseEvent pageX pageY st).
Proof.
  destruct (currentMouseTarget st) as [pos |] eqn:Htarget;
    [| right; right; left; split;
       [now apply updateFromMouseEvent_no_target | now left]].
  rewrite (updateFromMouseEvent_clamped st pos) by assumption.
  unfold applyOffsets, bind at 1, gets at 1.
  destruct (param_is (currentMouseParam st) "h");
    [| destruct (param_is (currentMouseParam st) "sv");
       [| destruct (param_is (currentMouseParam st) "a")]].
  - unfold bind at 1 2, gets at 1, deref.
    destruct (currentHSVColor st) as [hsv |] eqn:Hhsv;
      [apply updateHSV_outcome | right; right; left; split; auto].
  - unfold bind at 1 2, gets at 1, deref.
    destruct (currentHSVColor st) as [hsv |] eqn:Hhsv;
      [apply updateHSV_outcome | right; right; left; split; auto].
  - unfold bind at 1 2, gets at 1, deref.
    destruct (currentRGBColor st) as [rgb |] eqn:Hrgb;
      [| right; right; left; split; auto].
    unfold ret, bind at 1, assign.
    destruct (currentHSVColor st) as [hsv |] eqn:Hhsv.
    + right; left. exists
        (ColorRGBA64.new (ColorRGBA64.r rgb) (ColorRGBA64.g rgb)
           (ColorRGBA64.b rgb)
           (Some
              (JS.Math_round
                 (clamped (pageX - DOMRect.left pos) (DOMRect.width pos)
                  * 100 / DOMRect.width pos) / 100))), hsv.
      split; [congruence |].
      rewrite (updateUIValues_true_run _ _ hsv) by (simpl; auto).
      destruct st; reflexivity.
    + right; right; right; right. eexists.
      split; [congruence |]. split; [assumption |].
      rewrite updateUIValues_true_throws by (simpl; auto).
      destruct st; reflexivity.
  - now left.
Qed.

(** An accepted number in one of the fields r, g, b, a. *)
Lemma numeric_rgba_run st param inputVal rgb :
  isNullOrWhiteSpace inputVal = false ->
  includes ["r"; "g"; "b"; "a"] param = true ->
  acceptsValue param (JS.parseInt inputVal) = true ->
  currentRGBColor st = Some rgb ->
  let rgb' := withChannel param (JS.parseInt inputVal) rgb in
  handleTextValueInput param inputVal st
  = (Some tt, committed rgb' (rgbToHSV rgb') st).
Proof.
  unfold handleTextValueInput, acceptsValue, JS.Number_isNaN_string.
  intros -> -> -> Hrgb. cbn [orb]. cbv zeta.
  destruct st; simpl in *; subst; reflexivity.
Qed.

(** An accepted number in one of the fields h, s, v. *)
Lemma numeric_hsv_run st param inputVal hsv :
  isNullOrWhiteSpace inputVal = false ->
  includes ["r"; "g"; "b"; "a"] param = false ->
  acceptsValue param (JS.parseInt inputVal) = true ->
  currentHSVColor st = Some hsv ->
  let n := JS.parseInt inputVal in
  handleTextValueInput param inputVal st
  = updateHSV
      (if String.eqb param "h" then n else ColorHSV.h hsv)
      (if String.eqb param "s" then n / 100 else ColorHSV.s hsv)
      (if String.eqb param "v" then n / 100 else ColorHSV.v hsv) st.
Proof.
  unfold handleTextValueInput, acceptsValue, JS.Number_isNaN_string.
  intros -> -> Haccepted Hhsv. cbn [orb]. cbv zeta.
  destruct (includes ["h"; "s"; "v"] param); [| discriminate].
  rewrite Haccepted. unfold bind at 1 2, gets at 1, deref.
  rewrite Hhsv. reflexivity.
Qed.

(** An accepted number whose field finds its colour missing. *)
Lemma numeric_accepted_throws st param inputVal :
  isNullOrWhiteSpace inputVal = false ->
  acceptsValue param (JS.parseInt inputVal) = true ->
  (includes ["r"; "g"; "b"; "a"] param = true /\ currentRGBColor st = None)
  \/ (includes ["r"; "g"; "b"; "a"] param = false
      /\ currentHSVColor st = None) ->
  handleTextValueInput param inputVal st = (None, st).
Proof.
  unfold handleTextValueInput, acceptsValue, JS.Number_isNaN_string.
  intros -> Haccepted [[Hin Hnone] | [Hin Hnone]];
    rewrite Hin in *; cbn [orb]; cbv zeta.
  - rewrite Haccepted. unfold bind at 1 2, gets at 1, deref.
    rewrite Hnone. reflexivity.
  - destruct (includes ["h"; "s"; "v"] param); [| discriminate].
    rewrite Haccepted. unfold bind at 1 2, gets at 1, deref.
    rewrite Hnone. reflexivity.
Qed.

(** The constructor never stores an alpha that is not a number, so a
    channel replaced twice is replaced once. *)
Lemma withChannel_twice param n rgb :
  withChannel param n (withChannel param n rgb) = withChannel param n rgb.
Proof.
  destruct rgb as [r g b a]. unfold withChannel, ColorRGBA64.new.
  cbn [ColorRGBA64.r ColorRGBA64.g ColorRGBA64.b ColorRGBA64.a].
  destruct (String.eqb param "r"), (String.eqb param "g"),
    (String.eqb param "b"), (String.eqb param "a");
    try reflexivity;
    destruct (JS.isNaN a) eqn:Hnan; try reflexivity;
    now rewrite Hnan.
Qed.

Lemma handleTextValueInput_outcome st param inputVal :
  outcome st (handleTextValueInput param inputVal st).
Proof.
  destruct (isNullOrWhiteSpace inputVal) eqn:Hblank;
    [left; apply numeric_rejected; now left |].
  destruct (acceptsValue param (JS.parseInt inputVal)) eqn:Haccepted;
    [| left; apply numeric_rejected; now right].
  destruct (includes ["r"; "g"; "b"; "a"] param) eqn:Hin.
  - destruct (currentRGBColor st) as [rgb |] eqn:Hrgb.
    + right; left. do 2 eexists. split; [congruence |].
      exact (numeric_rgba_run st param inputVal rgb
               Hblank Hin Haccepted Hrgb).
    + right; right; left. split; [| auto].
      apply numeric_accepted_throws; auto.
  - destruct (currentHSVColor st) as [hsv |] eqn:Hhsv.
    + rewrite (numeric_hsv_run st param inputVal hsv) by assumption.
      apply updateHSV_outcome.
    + right; right; left. split; [| auto].
      apply numeric_accepted_throws; auto.
Qed.

Lemma sameButDrag_refl st : sameButDrag st st.
Proof. repeat split. Qed.

Lemma sameButDrag_trans st1 st2 st3 :
  sameButDrag st1 st2 -> sameButDrag st2 st3 -> sameButDrag st1 st3.
Proof.
  unfold sameButDrag.
  intros (? & ? & ? & ? & ? & ? & ? & ? & ? & ?)
         (? & ? & ? & ? & ? & ? & ? & ? & ? & ?).
  repeat split; congruence.
Qed.

(** Every edit is one numeric-field edit or one [updateFromMouseEvent],
    between two changes of the drag state. *)
Lemma perform_outcome e st :
  exists st0 s1,
    sameButDrag st st0
    /\ currentMouseTarget st0
       = match e with
         | MouseDown _ target _ _ => Some target
         | _ => currentMouseTarget st
         end
    /\ outcome st0 (fst (perform e st), s1)
    /\ sameButDrag s1 (snd (perform e st)).
Proof.
  destruct e as [param inputVal | param target pageX pageY
                | pageX pageY | pageX pageY]; simpl.
  - exists st, (snd (handleTextValueInput param inputVal st)).
    repeat split.
    rewrite <- surjective_pairing. apply handleTextValueInput_outcome.
  - exists (with_currentMouseParam (Some param)
              (with_currentMouseTarget (Some target) st)).
    pose proof (updateFromMouseEvent_outcome
                  (with_currentMouseParam (Some param)
                     (with_currentMouseTarget (Some target) st))
                  pageX pageY) as Hout.
    replace (handleMouseDown param target pageX pageY st)
      with (match updateFromMouseEvent pageX pageY
                    (with_currentMouseParam (Some param)
                       (with_currentMouseTarget (Some target) st)) with
            | (Some _, s1) => (Some tt, with_isMouseActive true s1)
            | (None, s1) => (None, s1)
            end) by reflexivity.
    destruct (updateFromMouseEvent pageX pageY _) as [[[] |] s1];
      exists s1; repeat split; assumption.
  - exists st, (snd (updateFromMouseEvent pageX pageY st)).
    repeat split.
    unfold handleMouseMove. rewrite <- surjective_pairing.
    apply updateFromMouseEvent_outcome.
  - exists st.
    pose proof (updateFromMouseEvent_outcome st pageX pageY) as Hout.
    replace (handleMouseUp pageX pageY st)
      with (match updateFromMouseEvent pageX pageY st with
            | (Some _, s1) =>
                (Some tt,
                 with_isMouseActive false
                   (with_currentMouseParam None
                      (with_currentMouseTarget None s1)))
            | (None, s1) => (None, s1)
            end) by reflexivity.
    destruct (updateFromMouseEvent pageX pageY st) as [[[] |] s1];
      exists s1; repeat split; assumption.
Qed.

Lemma outcome_emitted st r s1 :
  outcome st (r, s1) ->
  emitted s1 = emitted st \/ emitted s1 = (emitted st ++ ["change"])%list.
Proof.
  intros [Heq | [(rgb & hsv & _ & Heq) | [[Heq _] | [(hsv & _ & Heq)
         | (rgb & _ & _ & Heq)]]]];
    injection Heq as _ ->; simpl; auto.
Qed.

Lemma inStep_same_colours st st' :
  currentRGBColor st' = currentRGBColor st ->
  currentHSVColor st' = currentHSVColor st ->
  uiValues st' = uiValues st ->
  inStep st -> inStep st'.
Proof.
  intros Hrgb Hhsv Hui (rgb & hsv & ? & ? & ?).
  exists rgb, hsv. repeat split; congruence.
Qed.

Lemma inStep_sameButDrag st st' :
  sameButDrag st st' -> inStep st -> inStep st'.
Proof.
  intros (_ & _ & _ & Hui & Hrgb & Hhsv & _).
  now apply inStep_same_colours.
Qed.

Lemma inStep_committed rgb hsv st : inStep (committed rgb hsv st).
Proof. exists rgb, hsv. repeat split. Qed.

Lemma inStep_snapshotted rgb hsv st : inStep (snapshotted rgb hsv st).
Proof. exists rgb, hsv. repeat split. Qed.

Lemma numeric_in_step st param inputVal :
  inStep st ->
  exists st',
    handleTextValueInput param inputVal st = (Some tt, st') /\ inStep st'.
Proof.
  intros Hstep. pose proof Hstep as (rgb & hsv & Hrgb & Hhsv & _).
  destruct (isNullOrWhiteSpace inputVal) eqn:Hblank;
    [exists st; split; [apply numeric_rejected; now left | assumption] |].
  destruct (acceptsValue param (JS.parseInt inputVal)) eqn:Haccepted;
    [| exists st; split; [apply numeric_rejected; now right | assumption]].
  destruct (includes ["r"; "g"; "b"; "a"] param) eqn:Hin.
  - eexists. split; [| apply inStep_committed].
    exact (numeric_rgba_run st param inputVal rgb Hblank Hin Haccepted Hrgb).
  - rewrite (numeric_hsv_run st param inputVal hsv) by assumption.
    rewrite (updateHSV_run st rgb) by assumption.
    eexists. split; [reflexivity | apply inStep_committed].
Qed.

(** In step, an edit with a target at hand returns. *)
Lemma outcome_in_step st r s1 :
  inStep st -> currentMouseTarget st <> None -> outcome st (r, s1) ->
  r = Some tt /\ inStep s1.
Proof.
  intros Hstep Htarget
    [Heq | [(rgb & hsv & _ & Heq) | [[_ Hmissing] | [(hsv & Hnone & _)
         | (rgb & _ & Hnone & _)]]]].
  - injection Heq as -> ->. now split.
  - injection Heq as -> ->. split; [reflexivity | apply inStep_committed].
  - destruct Hstep as (rgb & hsv & Hrgb & Hhsv & _).
    destruct Hmissing as [? | [? | ?]]; congruence.
  - destruct Hstep as (rgb & hsv' & Hrgb & _). congruence.
  - destruct Hstep as (rgb' & hsv & _ & Hhsv & _). congruence.
Qed.

End Outcomes.

(** *** Invariants of the handlers *)

(** X4. Whatever the event and whether the handler returns or throws, the
    event log is only appended to, by at most one [change]. *)
Theorem at_most_one_change_per_event {lib : Collaborators} ev st :
  let st' := snd (handle ev st) in
  emitted st' = emitted st
  \/ emitted st' = (emitted st ++ ["change"])%list.
Proof.
  destruct ev as [| | | text | | e]; simpl.
  - left. destruct (isNullOrWhiteSpace (value st)) eqn:Hblank.
    + rewrite (connectedCallback_blank st Hblank). unfold attachedTo. simpl.
      now destruct (autofocus st).
    + destruct (parseColor (value st)) as [c |] eqn:Hparsed.
      * rewrite (connectedCallback_parsed st c Hblank Hparsed).
        unfold attachedTo. simpl. now destruct (autofocus st).
      * now rewrite (connectedCallback_unparsed st Hblank Hparsed).
  - now left.
  - now left.
  - destruct (String.eqb_spec (styleReadBack text) "")
      as [Hrefused | Haccepted].
    + rewrite (handleTextInput_refused st text Hrefused). now left.
    + destruct (parseColor text) as [c |] eqn:Hparsed.
      * rewrite (handleTextInput_parsed st text c Haccepted Hparsed).
        now right.
      * rewrite (handleTextInput_unparsed st text Haccepted Hparsed).
        now left.
  - now right.
  - destruct (perform_outcome e st)
      as (st0 & s1 & Hbefore & _ & Hout & Hafter).
    apply outcome_emitted in Hout.
    destruct Hbefore as (_ & _ & _ & _ & _ & _ & _ & _ & _ & Hbefore).
    destruct Hafter as (_ & _ & _ & _ & _ & _ & _ & _ & _ & Hafter).
    rewrite Hafter, <- Hbefore. exact Hout.
Qed.

(** X5. Every handler that returns leaves the snapshot in step with the two
    colours; attaching establishes this from any state, and every other
    event keeps it. *)
Theorem returning_handlers_keep_the_snapshot_in_step
    {lib : Collaborators} ev st st' :
  handle ev st = (Some tt, st') -> ev = Attach \/ inStep st -> inStep st'.
Proof.
  destruct ev as [| | | text | | e]; simpl; intros Hrun Hstep;
    try (destruct Hstep as [Hstep | Hstep]; [discriminate |]).
  - destruct (isNullOrWhiteSpace (value st)) eqn:Hblank;
      [| destruct (parseColor (value st)) as [c |] eqn:Hparsed].
    + rewrite (connectedCallback_blank st Hblank) in Hrun.
      injection Hrun as <-.
      apply (inStep_same_colours
               (snapshotted (ColorRGBA64.mk 1 0 0 1)
                  (rgbToHSV (ColorRGBA64.mk 1 0 0 1)) (with_isOpen false st)));
        try apply inStep_snapshotted;
        unfold attachedTo; simpl; now destruct (autofocus st).
    + rewrite (connectedCallback_parsed st c Hblank Hparsed) in Hrun.
      injection Hrun as <-.
      apply (inStep_same_colours
               (snapshotted c (rgbToHSV c) (with_isOpen false st)));
        try apply inStep_snapshotted;
        unfold attachedTo; simpl; now destruct (autofocus st).
    + rewrite (connectedCallback_unparsed st Hblank Hparsed) in Hrun.
      discriminate.
  - injection Hrun as <-. destruct Hstep as (rgb & hsv & ? & ? & ?).
    now exists rgb, hsv.
  - injection Hrun as <-. destruct Hstep as (rgb & hsv & ? & ? & ?).
    now exists rgb, hsv.
  - destruct (String.eqb_spec (styleReadBack text) "")
      as [Hrefused | Haccepted].
    + rewrite (handleTextInput_refused st text Hrefused) in Hrun.
      injection Hrun as <-. destruct Hstep as (rgb & hsv & ? & ? & ?).
      now exists rgb, hsv.
    + destruct (parseColor text) as [c |] eqn:Hparsed.
      * rewrite (handleTextInput_parsed st text c Haccepted Hparsed) in Hrun.
        injection Hrun as <-. exists c, (rgbToHSV c). repeat split.
      * rewrite (handleTextInput_unparsed st text Haccepted Hparsed) in Hrun.
        discriminate.
  - injection Hrun as <-. destruct Hstep as (rgb & hsv & ? & ? & ?).
    now exists rgb, hsv.
  - destruct (perform_outcome e st)
      as (st0 & s1 & Hbefore & _ & Hout & Hafter).
    rewrite Hrun in Hout, Hafter. simpl in Hout, Hafter.
    apply (inStep_sameButDrag s1 st' Hafter).
    apply (inStep_sameButDrag st st0 Hbefore) in Hstep.
    destruct Hout as [Heq | [(rgb & hsv & _ & Heq) | [[Heq _]
                     | [(hsv & _ & Heq) | (rgb & _ & _ & Heq)]]]];
      try discriminate.
    + now injection Heq as <-.
    + injection Heq as ->. apply inStep_committed.
Qed.

Lemma snapshot_in_step_witness :
  inStep (lib := Fixture.lib)
    (snd (handle (lib := Fixture.lib) (Edit (NumericField "g" "128"))
            Fixture.attached)).
Proof.
  apply (returning_handlers_keep_the_snapshot_in_step
           (lib := Fixture.lib) (Edit (NumericField "g" "128"))
           Fixture.attached _ eq_refl).
  right.
  exists Fixture.red, (ColorHSV.mk 0 1 1). repeat split.
Defined.

(** X6. In step, no edit throws while a target is at hand: every numeric
    field edit and every mouse-down returns, and so does every mouse-move
    and mouse-up of a drag in progress; the element stays in step. *)
Theorem edits_in_step_never_throw {lib : Collaborators} e st :
  inStep st ->
  match e with
  | MouseMove _ _ | MouseUp _ _ => currentMouseTarget st <> None
  | _ => True
  end ->
  exists st', perform e st = (Some tt, st') /\ inStep st'.
Proof.
  intros Hstep Htarget.
  destruct e as [param inputVal | param target pageX pageY
                | pageX pageY | pageX pageY] eqn:He;
    [now apply numeric_in_step | | |];
    rewrite <- He in *;
    destruct (perform_outcome e st)
      as (st0 & s1 & Hbefore & Htarget0 & Hout & Hafter);
    apply (inStep_sameButDrag st st0 Hbefore) in Hstep;
    (assert (Hsome : currentMouseTarget st0 <> None)
       by (rewrite Htarget0, He; first [assumption | discriminate]));
    destruct (outcome_in_step st0 _ s1 Hstep Hsome Hout) as [Hfst Hstep1];
    exists (snd (perform e st));
    (split; [rewrite <- Hfst; apply surjective_pairing
            | exact (inStep_sameButDrag _ _ Hafter Hstep1)]).
Qed.

Lemma edits_in_step_witness :
  exists st',
    perform (lib := Fixture.lib) (MouseMove 120 3) (Fixture.dragging "h")
    = (Some tt, st')
    /\ inStep (lib := Fixture.lib) st'.
Proof.
  refine (edits_in_step_never_throw (lib := Fixture.lib)
            (MouseMove 120 3) (Fixture.dragging "h") _ _).
  - exists Fixture.red, (ColorHSV.mk 0 1 1). repeat split.
  - discriminate.
Defined.

Section MoreRuns.

Context {lib : Collaborators}.

Lemma outcome_missing_rgb st r s1 :
  currentRGBColor st = None -> outcome st (r, s1) ->
  currentRGBColor s1 = None /\ emitted s1 = emitted st
  /\ value s1 = value st /\ uiValues s1 = uiValues st.
Proof.
  intros Hnone
    [Heq | [(rgb & hsv & Hsome & _) | [[Heq _] | [(hsv & _ & Heq)
         | (rgb & Hsome & _)]]]];
    try contradiction; injection Heq as _ ->; now repeat split.
Qed.

Lemma outcome_thrown_keeps_drag st s1 :
  outcome st (None, s1) ->
  currentMouseTarget s1 = currentMouseTarget st
  /\ currentMouseParam s1 = currentMouseParam st
  /\ isMouseActive s1 = isMouseActive st.
Proof.
  intros [Heq | [(rgb & hsv & _ & Heq) | [[Heq _] | [(hsv & _ & Heq)
         | (rgb & _ & _ & Heq)]]]];
    try discriminate; injection Heq as ->; now repeat split.
Qed.

Lemma handleMouseDown_run st s1 param target pageX pageY :
  updateFromMouseEvent pageX pageY
    (with_currentMouseParam (Some param)
       (with_currentMouseTarget (Some target) st))
  = (Some tt, s1) ->
  handleMouseDown param target pageX pageY st
  = (Some tt, with_isMouseActive true s1).
Proof.
  intros Hrun. unfold handleMouseDown, bind at 1 2 3, assign.
  now rewrite Hrun.
Qed.

Lemma handleMouseUp_run st s1 pageX pageY :
  updateFromMouseEvent pageX pageY st = (Some tt, s1) ->
  handleMouseUp pageX pageY st
  = (Some tt,
     with_isMouseActive false
       (with_currentMouseParam None (with_currentMouseTarget None s1))).
Proof.
  intros Hrun. unfold handleMouseUp, bind at 1. now rewrite Hrun.
Qed.

Lemma handleMouseUp_thrown st s1 pageX pageY :
  updateFromMouseEvent pageX pageY st = (None, s1) ->
  handleMouseUp pageX pageY st = (None, s1).
Proof.
  intros Hrun. unfold handleMouseUp, bind at 1. now rewrite Hrun.
Qed.

Lemma handleMouseUp_inv st st' pageX pageY :
  handleMouseUp pageX pageY st = (Some tt, st') ->
  exists s1,
    updateFromMouseEvent pageX pageY st = (Some tt, s1)
    /\ st' = with_isMouseActive false
               (with_currentMouseParam None (with_currentMouseTarget None s1)).
Proof.
  unfold handleMouseUp, bind at 1.
  destruct (updateFromMouseEvent pageX pageY st) as [[[] |] s1];
    [| discriminate].
  intros Hrun. exists s1. split; [reflexivity |].
  unfold bind, assign in Hrun. now injection Hrun as <-.
Qed.

Lemma includes_false names param :
  ~ In param names -> includes names param = false.
Proof.
  unfold includes. induction names as [| name names IH]; simpl;
    [reflexivity |].
  intros Hnotin. rewrite IH by tauto.
  destruct (String.eqb_spec param name) as [-> | _]; [tauto | reflexivity].
Qed.

Lemma param_is_false zone name :
  zone <> name -> param_is (Some zone) name = false.
Proof. intros Hneq. now apply String.eqb_neq. Qed.

End MoreRuns.

(** *** When a colour is missing *)

(** X7. A string the browser takes for a colour and the parser cannot read
    makes [handleTextInput] throw: the text value is already the string,
    the RGBA colour is [null], the HSV colour and the snapshot are the
    old ones, and nothing is emitted. *)
Theorem accepted_unread_text_throws {lib : Collaborators} st text :
  styleReadBack text <> "" -> parseColor text = None ->
  exists st',
    handleTextInput text st = (None, st')
    /\ value st' = text
    /\ currentRGBColor st' = None
    /\ currentHSVColor st' = currentHSVColor st
    /\ uiValues st' = uiValues st
    /\ emitted st' = emitted st.
Proof.
  intros Haccepted Hparsed. eexists. split.
  - exact (handleTextInput_unparsed st text Haccepted Hparsed).
  - repeat split.
Qed.

Lemma accepted_unread_text_witness :
  exists st',
    handleTextInput (lib := Fixture.lib) "hsl(0, 100%, 50%)" Fixture.attached
    = (None, st')
    /\ value st' = "hsl(0, 100%, 50%)"
    /\ currentRGBColor st' = None
    /\ currentHSVColor st' = Some (ColorHSV.mk 0 1 1)
    /\ uiValues st' = uiValues Fixture.attached
    /\ emitted st' = [].
Proof.
  refine (accepted_unread_text_throws (lib := Fixture.lib)
            Fixture.attached "hsl(0, 100%, 50%)" _ eq_refl).
  vm_compute. discriminate.
Defined.

(** X8. While the RGBA colour is [null], no numeric field edit and no mouse
    event commits anything: returning or throwing, the handler leaves the
    RGBA colour [null] and the text value, the snapshot and the event log
    as they were. *)
Theorem missing_colour_survives_every_edit {lib : Collaborators} e st :
  currentRGBColor st = None ->
  let st' := snd (perform e st) in
  currentRGBColor st' = None
  /\ value st' = value st
  /\ uiValues st' = uiValues st
  /\ emitted st' = emitted st.
Proof.
  intros Hnone.
  destruct (perform_outcome e st) as (st0 & s1 & Hbefore & _ & Hout & Hafter).
  destruct Hbefore as (Hv0 & _ & _ & Hui0 & Hrgb0 & _ & _ & _ & _ & He0).
  destruct Hafter as (Hv1 & _ & _ & Hui1 & Hrgb1 & _ & _ & _ & _ & He1).
  rewrite <- Hrgb0 in Hnone.
  destruct (outcome_missing_rgb st0 _ s1 Hnone Hout) as (Hrgb & He & Hv & Hui).
  cbv zeta. repeat split; congruence.
Qed.

Lemma missing_colour_witness :
  let st :=
    snd (handleTextInput (lib := Fixture.lib) "hsl(0, 100%, 50%)"
           Fixture.attached) in
  let st' := snd (perform (lib := Fixture.lib) (NumericField "h" "120") st) in
  currentRGBColor st' = None
  /\ value st' = "hsl(0, 100%, 50%)"
  /\ uiValues st' = uiValues Fixture.attached
  /\ emitted st' = [].
Proof.
  exact (missing_colour_survives_every_edit (lib := Fixture.lib)
           (NumericField "h" "120")
           (snd (handleTextInput (lib := Fixture.lib) "hsl(0, 100%, 50%)"
                   Fixture.attached))
           eq_refl).
Defined.

(** *** The drag state *)

(** X9. Without a mouse target, mouse-move and mouse-up throw and change
    nothing.  Once a mouse-up has returned, the target and the zone are
    [null] and the element is no longer active, so a further mouse-move
    throws; a mouse-up that throws leaves the drag state as it was, the
    element still active. *)
Theorem mouse_events_need_a_target
    {lib : Collaborators} st pageX pageY :
  (currentMouseTarget st = None ->
   handleMouseMove pageX pageY st = (None, st)
   /\ handleMouseUp pageX pageY st = (None, st))
  /\ (forall st',
        handleMouseUp pageX pageY st = (Some tt, st') ->
        currentMouseTarget st' = None /\ currentMouseParam st' = None
        /\ isMouseActive st' = false
        /\ forall x y, handleMouseMove x y st' = (None, st'))
  /\ (fst (handleMouseUp pageX pageY st) = None ->
      let st' := snd (handleMouseUp pageX pageY st) in
      currentMouseTarget st' = currentMouseTarget st
      /\ currentMouseParam st' = currentMouseParam st
      /\ isMouseActive st' = isMouseActive st).
Proof.
  split; [| split].
  - intros Htarget. unfold handleMouseMove, handleMouseUp, bind at 1.
    rewrite (updateFromMouseEvent_no_target st pageX pageY Htarget).
    now split.
  - intros st' Hrun.
    apply handleMouseUp_inv in Hrun as (s1 & _ & ->).
    split; [reflexivity |]. split; [reflexivity |]. split; [reflexivity |].
    intros x y. now apply updateFromMouseEvent_no_target.
  - pose proof (updateFromMouseEvent_outcome st pageX pageY) as Hout.
    destruct (updateFromMouseEvent pageX pageY st) as [[[] |] s1] eqn:Hrun.
    + now rewrite (handleMouseUp_run st s1 pageX pageY Hrun).
    + rewrite (handleMouseUp_thrown st s1 pageX pageY Hrun).
      intros _. now apply outcome_thrown_keeps_drag.
Qed.

Lemma mouse_events_need_a_target_witness :
  handleMouseMove (lib := Fixture.lib) 10 10 Fixture.attached
  = (None, Fixture.attached)
  /\ handleMouseUp (lib := Fixture.lib) 10 10 Fixture.attached
     = (None, Fixture.attached).
Proof.
  exact (proj1 (mouse_events_need_a_target (lib := Fixture.lib)
                  Fixture.attached 10 10) eq_refl).
Defined.

(** X10. A mouse-down with a zone string other than [h], [sv] and [a] records
    the target and the string and makes the element active, and that is
    all: it returns whatever the colours are, stores no colour and emits
    nothing. *)
Theorem mouse_down_in_unknown_zone_only_starts_the_drag
    {lib : Collaborators} st zone target pageX pageY :
  ~ In zone ["h"; "sv"; "a"] ->
  handleMouseDown zone target pageX pageY st
  = (Some tt,
     with_isMouseActive true
       (with_currentMouseParam (Some zone)
          (with_currentMouseTarget (Some target) st))).
Proof.
  intros Hzone. apply handleMouseDown_run.
  rewrite (updateFromMouseEvent_clamped _ target) by reflexivity.
  unfold applyOffsets, bind at 1, gets at 1.
  cbn [currentMouseParam with_currentMouseParam].
  rewrite !param_is_false by (intros ->; apply Hzone; simpl; tauto).
  reflexivity.
Qed.

Lemma mouse_down_in_unknown_zone_witness :
  handleMouseDown (lib := Fixture.lib) "alpha" Fixture.slider 50 5
    Fixture.attached
  = (Some tt, Fixture.dragging "alpha").
Proof.
  refine (mouse_down_in_unknown_zone_only_starts_the_drag
            (lib := Fixture.lib) Fixture.attached "alpha" Fixture.slider
            50 5 _).
  simpl. intros [H | [H | [H | []]]]; discriminate H.
Defined.

(** X11. In the hue and the alpha zone, and in every zone but [sv], the
    vertical position of the pointer does not matter: two positions with
    the same [pageX] leave the element in the same state. *)
Theorem only_the_sv_zone_reads_pageY
    {lib : Collaborators} st pageX pageY pageY' :
  currentMouseParam st <> Some "sv" ->
  updateFromMouseEvent pageX pageY st = updateFromMouseEvent pageX pageY' st.
Proof.
  intros Hzone.
  destruct (currentMouseTarget st) as [pos |] eqn:Htarget;
    [| now rewrite !updateFromMouseEvent_no_target].
  rewrite !(updateFromMouseEvent_clamped st pos) by assumption.
  unfold applyOffsets, bind, gets.
  destruct (param_is (currentMouseParam st) "h"); [reflexivity |].
  destruct (param_is (currentMouseParam st) "sv") eqn:Hsv; [| reflexivity].
  exfalso. apply Hzone.
  destruct (currentMouseParam st) as [zone |]; [| discriminate].
  simpl in Hsv. apply String.eqb_eq in Hsv. now subst.
Qed.

Lemma only_the_sv_zone_reads_pageY_witness :
  updateFromMouseEvent (lib := Fixture.lib) 120 3 (Fixture.dragging "h")
  = updateFromMouseEvent (lib := Fixture.lib) 120 900 (Fixture.dragging "h").
Proof.
  refine (only_the_sv_zone_reads_pageY (lib := Fixture.lib)
            (Fixture.dragging "h") 120 3 900 _).
  discriminate.
Defined.

(** *** The numeric fields *)

(** X12. A [param] that is none of the seven channel names makes
    [handleTextValueInput] return with the element unchanged, whatever
    the text. *)
Theorem numeric_field_with_unknown_param_is_noop
    {lib : Collaborators} st param inputVal :
  ~ In param ["r"; "g"; "b"; "a"; "h"; "s"; "v"] ->
  handleTextValueInput param inputVal st = (Some tt, st).
Proof.
  intros Hparam. apply numeric_rejected. right. unfold acceptsValue.
  rewrite !includes_false; [reflexivity | |]; simpl in *; tauto.
Qed.

Lemma numeric_field_with_unknown_param_witness :
  handleTextValueInput (lib := Fixture.lib) "hue" "120" Fixture.attached
  = (Some tt, Fixture.attached).
Proof.
  refine (numeric_field_with_unknown_param_is_noop (lib := Fixture.lib)
            Fixture.attached "hue" "120" _).
  simpl. intros [H | [H | [H | [H | [H | [H | [H | []]]]]]]]; discriminate H.
Defined.

(** *** The edges of a zone *)

Module EdgeFacts.

Lemma lt_irrefl (x : JS.number) : JS.lt x x = false.
Proof.
  unfold JS.lt. rewrite FloatAxioms.ltb_spec. unfold SFltb.
  destruct (Prim2SF x) as [sx | sx | | sx mx ex] eqn:Hx;
    try (rewrite SFcompare_refl by discriminate); reflexivity.
Qed.

(** An offset beyond a limit that is not negative is clamped to it. *)
Lemma clamped_above (x limit : JS.number) :
  JS.le 0 limit = true -> JS.gt x limit = true -> clamped x limit = limit.
Proof.
  intros Hlimit Habove. unfold clamped. rewrite Habove.
  now rewrite (le_zero_not_lt limit Hlimit).
Qed.

Lemma clamped_at_limit (limit : JS.number) :
  JS.le 0 limit = true -> clamped limit limit = limit.
Proof.
  intros Hlimit. unfold clamped, JS.gt. rewrite lt_irrefl.
  now rewrite (le_zero_not_lt limit Hlimit).
Qed.

(** Zero divided by a positive number is zero. *)
Lemma zero_over_positive (w : JS.number) : JS.lt 0 w = true -> 0 / w = 0.
Proof.
  unfold JS.lt. rewrite FloatAxioms.ltb_spec, Prim2SF_zero. intros Hpos.
  rewrite <- (SF2Prim_Prim2SF (0 / w)), div_spec, Prim2SF_zero.
  destruct (Prim2SF w) as [sw | sw | | sw mw ew];
    try destruct sw; try discriminate; reflexivity.
Qed.

Lemma hue_at_left_edge (x w : JS.number) :
  JS.lt 0 w = true -> clamped x w = 0 -> 359 * clamped x w / w = 0.
Proof.
  intros Hpos ->. change (359 * 0) with 0. now apply zero_over_positive.
Qed.

Lemma percent_at_left_edge (x w : JS.number) :
  JS.lt 0 w = true -> clamped x w = 0 ->
  JS.Math_round (clamped x w * 100 / w) / 100 = 0.
Proof.
  intros Hpos ->. change (0 * 100) with 0.
  rewrite (zero_over_positive w Hpos). reflexivity.
Qed.

Lemma percent_at_top_edge (y h : JS.number) :
  JS.lt 0 h = true -> clamped y h = 0 ->
  JS.Math_round (100 - clamped y h * 100 / h) / 100 = 1.
Proof.
  intros Hpos ->. change (0 * 100) with 0.
  rewrite (zero_over_positive h Hpos). reflexivity.
Qed.

End EdgeFacts.

Import EdgeFacts.

(** X13. During a drag over the hue zone the new HSV colour has hue
    359 x / width, [x] being the clamped offset, not rounded, and the
    saturation and value of the current colour; the RGBA colour is
    rederived from it with the current alpha, the snapshot is recomputed,
    the text value is the serialisation of the new colour and one change
    is emitted. *)
Theorem hue_drag_replaces_hue_only
    {lib : Collaborators} st pos rgb hsv pageX pageY :
  currentMouseTarget st = Some pos -> currentMouseParam st = Some "h" ->
  currentRGBColor st = Some rgb -> currentHSVColor st = Some hsv ->
  let width := DOMRect.width pos in
  let x := clamped (pageX - DOMRect.left pos) width in
  let hsv' :=
    ColorHSV.mk (359 * x / width) (ColorHSV.s hsv) (ColorHSV.v hsv) in
  let rgb' := hsvToRGB hsv' (ColorRGBA64.a rgb) in
  exists st',
    updateFromMouseEvent pageX pageY st = (Some tt, st')
    /\ currentHSVColor st' = Some hsv'
    /\ currentRGBColor st' = Some rgb'
    /\ uiValues st' = ColorPickerUI_new rgb' hsv'
    /\ value st' = serialisation rgb'
    /\ emitted st' = (emitted st ++ ["change"])%list.
Proof.
  intros Htarget Hparam Hrgb Hhsv width x hsv' rgb'. eexists. split.
  - exact (drag_h_run st pos rgb hsv pageX pageY Htarget Hparam Hrgb Hhsv).
  - repeat split.
Qed.

Lemma hue_drag_witness :
  exists st',
    updateFromMouseEvent (lib := Fixture.lib) 100 5 (Fixture.dragging "h")
    = (Some tt, st')
    /\ currentHSVColor st' = Some (ColorHSV.mk 179.5 1 1)
    /\ currentRGBColor st'
       = Some (Fixture.hsvToRGB (ColorHSV.mk 179.5 1 1) 1)
    /\ uiValues st'
       = ColorPickerUI_new (lib := Fixture.lib)
           (Fixture.hsvToRGB (ColorHSV.mk 179.5 1 1) 1)
           (ColorHSV.mk 179.5 1 1)
    /\ value st' = "#00fffd"
    /\ emitted st' = ["change"].
Proof.
  exact (hue_drag_replaces_hue_only (lib := Fixture.lib)
           (Fixture.dragging "h") Fixture.slider Fixture.red
           (ColorHSV.mk 0 1 1) 100 5 eq_refl eq_refl eq_refl eq_refl).
Defined.

(** X14. Over a box whose width and height are not negative, a pointer beyond
    the right edge gives the state a pointer on the right edge gives, and
    a pointer below the bottom edge the state of one on the bottom edge;
    a pointer above the top edge gives the state of one on the top
    edge. *)
Theorem pointer_beyond_an_edge_counts_as_on_it
    {lib : Collaborators} st pos pageX pageY pageX' pageY' :
  currentMouseTarget st = Some pos ->
  let x := pageX - DOMRect.left pos in
  let y := pageY - DOMRect.top pos in
  let x' := pageX' - DOMRect.left pos in
  let y' := pageY' - DOMRect.top pos in
  let width := DOMRect.width pos in
  let height := DOMRect.height pos in
  (JS.le 0 width = true -> JS.gt x width = true -> x' = width ->
   updateFromMouseEvent pageX pageY st = updateFromMouseEvent pageX' pageY st)
  /\
  (JS.le 0 height = true -> JS.gt y height = true -> y' = height ->
   updateFromMouseEvent pageX pageY st = updateFromMouseEvent pageX pageY' st)
  /\
  (JS.lt y 0 = true -> y' = 0 ->
   updateFromMouseEvent pageX pageY st = updateFromMouseEvent pageX pageY' st).
Proof.
  intros Htarget x y x' y' width height.
  split; [| split].
  - intros Hwidth Habove Hedge.
    rewrite !(updateFromMouseEvent_clamped st pos) by assumption.
    fold x x' width. rewrite Hedge.
    now rewrite (clamped_above x width), (clamped_at_limit width).
  - intros Hheight Habove Hedge.
    rewrite !(updateFromMouseEvent_clamped st pos) by assumption.
    fold y y' height. rewrite Hedge.
    now rewrite (clamped_above y height), (clamped_at_limit height).
  - intros Hneg Hedge.
    rewrite !(updateFromMouseEvent_clamped st pos) by assumption.
    fold y y' height. rewrite Hedge.
    now rewrite clamped_at_zero, (clamped_negative y height).
Qed.

Lemma pointer_beyond_an_edge_witness :
  updateFromMouseEvent (lib := Fixture.lib) 250 5 (Fixture.dragging "sv")
  = updateFromMouseEvent (lib := Fixture.lib) 200 5 (Fixture.dragging "sv")
  /\ updateFromMouseEvent (lib := Fixture.lib) 50 75 (Fixture.dragging "sv")
     = updateFromMouseEvent (lib := Fixture.lib) 50 20 (Fixture.dragging "sv")
  /\ updateFromMouseEvent (lib := Fixture.lib) 50 (-3) (Fixture.dragging "sv")
     = updateFromMouseEvent (lib := Fixture.lib) 50 0 (Fixture.dragging "sv").
Proof.
  split; [| split].
  - exact (proj1 (pointer_beyond_an_edge_counts_as_on_it
                    (lib := Fixture.lib) (Fixture.dragging "sv")
                    Fixture.slider 250 5 200 5 eq_refl)
             eq_refl eq_refl eq_refl).
  - exact (proj1 (proj2 (pointer_beyond_an_edge_counts_as_on_it
                           (lib := Fixture.lib) (Fixture.dragging "sv")
                           Fixture.slider 50 75 50 20 eq_refl))
             eq_refl eq_refl eq_refl).
  - exact (proj2 (proj2 (pointer_beyond_an_edge_counts_as_on_it
                           (lib := Fixture.lib) (Fixture.dragging "sv")
                           Fixture.slider 50 (-3) 50 0 eq_refl))
             eq_refl eq_refl).
Defined.

(** X15. Over a box of positive width, a pointer on or left of the left edge
    sets the hue to 0 in the hue zone and the alpha to 0 in the alpha
    zone, the text value becoming the functional-notation string of the
    transparent colour; in the saturation-value zone, the height being
    positive too, the top left corner sets saturation 0 and value 1. *)
Theorem pointer_at_the_left_edge_gives_zero
    {lib : Collaborators} st pos rgb hsv pageX pageY :
  currentMouseTarget st = Some pos ->
  currentRGBColor st = Some rgb -> currentHSVColor st = Some hsv ->
  let x := pageX - DOMRect.left pos in
  let y := pageY - DOMRect.top pos in
  JS.lt 0 (DOMRect.width pos) = true ->
  JS.lt x 0 = true \/ x = 0 ->
  (currentMouseParam st = Some "h" ->
   exists st',
     updateFromMouseEvent pageX pageY st = (Some tt, st')
     /\ currentHSVColor st'
        = Some (ColorHSV.mk 0 (ColorHSV.s hsv) (ColorHSV.v hsv)))
  /\
  (currentMouseParam st = Some "a" ->
   let rgb' :=
     ColorRGBA64.mk (ColorRGBA64.r rgb) (ColorRGBA64.g rgb)
       (ColorRGBA64.b rgb) 0 in
   exists st',
     updateFromMouseEvent pageX pageY st = (Some tt, st')
     /\ currentRGBColor st' = Some rgb'
     /\ value st' = toStringWebRGBA rgb')
  /\
  (currentMouseParam st = Some "sv" ->
   JS.lt 0 (DOMRect.height pos) = true -> JS.lt y 0 = true \/ y = 0 ->
   exists st',
     updateFromMouseEvent pageX pageY st = (Some tt, st')
     /\ currentHSVColor st' = Some (ColorHSV.mk (ColorHSV.h hsv) 0 1)).
Proof.
  intros Htarget Hrgb Hhsv x y Hwidth Hleft.
  assert (Hx : clamped x (DOMRect.width pos) = 0).
  { destruct Hleft as [Hneg | ->];
      [now apply clamped_negative | apply clamped_at_zero]. }
  split; [| split].
  - intros Hparam. eexists. split.
    + exact (drag_h_run st pos rgb hsv pageX pageY Htarget Hparam Hrgb Hhsv).
    + simpl. unfold hueAt. fold x.
      now rewrite (hue_at_left_edge x _ Hwidth Hx).
  - intros Hparam rgb'. eexists. split.
    + exact (drag_a_run st pos rgb hsv pageX pageY Htarget Hparam Hrgb Hhsv).
    + simpl. unfold percentAcross. fold x.
      rewrite (percent_at_left_edge x _ Hwidth Hx). split; reflexivity.
  - intros Hparam Hheight Htop.
    assert (Hy : clamped y (DOMRect.height pos) = 0).
    { destruct Htop as [Hneg | ->];
        [now apply clamped_negative | apply clamped_at_zero]. }
    eexists. split.
    + exact (drag_sv_run st pos rgb hsv pageX pageY Htarget Hparam Hrgb Hhsv).
    + simpl. unfold percentAcross, percentUp. fold x y.
      now rewrite (percent_at_left_edge x _ Hwidth Hx),
        (percent_at_top_edge y _ Hheight Hy).
Qed.

Lemma pointer_at_the_left_edge_witness :
  let rgb' := ColorRGBA64.mk 1 0 0 0 in
  exists st',
    updateFromMouseEvent (lib := Fixture.lib) (-8) 5 (Fixture.dragging "a")
    = (Some tt, st')
    /\ currentRGBColor st' = Some rgb'
    /\ value st' = "rgba(255,0,0,0)".
Proof.
  exact (proj1 (proj2 (pointer_at_the_left_edge_gives_zero
                         (lib := Fixture.lib) (Fixture.dragging "a")
                         Fixture.slider Fixture.red (ColorHSV.mk 0 1 1)
                         (-8) 5 eq_refl eq_refl eq_refl eq_refl
                         (or_introl eq_refl)))
           eq_refl).
Defined.

(** X16. A click, a mouse-down and a mouse-up at one place in one of the three
    zones, on an element in step: both handlers return, the mouse-up
    leaves the colours, the snapshot and the text value as the mouse-down
    set them, two changes are emitted in all, and the drag state is
    cleared.  The conversion from HSV is taken to return the alpha it is
    given. *)
Theorem click_commits_twice_and_ends_the_drag
    {lib : Collaborators} st zone target pageX pageY :
  (forall c alpha, ColorRGBA64.a (hsvToRGB c alpha) = alpha) ->
  In zone ["h"; "sv"; "a"] -> inStep st ->
  exists st1 st2,
    handleMouseDown zone target pageX pageY st = (Some tt, st1)
    /\ handleMouseUp pageX pageY st1 = (Some tt, st2)
    /\ currentRGBColor st2 = currentRGBColor st1
    /\ currentHSVColor st2 = currentHSVColor st1
    /\ uiValues st2 = uiValues st1
    /\ value st2 = value st1
    /\ emitted st2 = (emitted st ++ ["change"; "change"])%list
    /\ currentMouseTarget st2 = None
    /\ currentMouseParam st2 = None
    /\ isMouseActive st2 = false.
Proof.
  intros Halpha Hzone (rgb & hsv & Hrgb & Hhsv & _).
  destruct Hzone as [<- | [<- | [<- | []]]]; do 2 eexists.
  - split; [| split].
    + apply handleMouseDown_run.
      apply (drag_h_run _ target rgb hsv); simpl;
        solve [assumption | reflexivity].
    + apply handleMouseUp_run.
      apply (drag_h_run _ target); simpl; reflexivity.
    + simpl. rewrite Halpha, <- app_assoc. repeat split.
  - split; [| split].
    + apply handleMouseDown_run.
      apply (drag_sv_run _ target rgb hsv); simpl;
        solve [assumption | reflexivity].
    + apply handleMouseUp_run.
      apply (drag_sv_run _ target); simpl; reflexivity.
    + simpl. rewrite Halpha, <- app_assoc. repeat split.
  - split; [| split].
    + apply handleMouseDown_run.
      apply (drag_a_run _ target rgb hsv); simpl;
        solve [assumption | reflexivity].
    + apply handleMouseUp_run.
      apply (drag_a_run _ target); simpl; reflexivity.
    + simpl. rewrite <- app_assoc. repeat split.
Qed.

Lemma click_witness :
  exists st1 st2,
    handleMouseDown (lib := Fixture.lib) "sv" Fixture.slider 50 5
      Fixture.attached
    = (Some tt, st1)
    /\ handleMouseUp (lib := Fixture.lib) 50 5 st1 = (Some tt, st2)
    /\ currentRGBColor st2 = currentRGBColor st1
    /\ currentHSVColor st2 = currentHSVColor st1
    /\ uiValues st2 = uiValues st1
    /\ value st2 = value st1
    /\ emitted st2 = ["change"; "change"]
    /\ currentMouseTarget st2 = None
    /\ currentMouseParam st2 = None
    /\ isMouseActive st2 = false.
Proof.
  refine (click_commits_twice_and_ends_the_drag (lib := Fixture.lib)
            Fixture.attached "sv" Fixture.slider 50 5
            (fun _ _ => eq_refl) (or_intror (or_introl eq_refl)) _).
  exists Fixture.red, (ColorHSV.mk 0 1 1). repeat split.
Defined.

(** *** What an accepted number changes *)

(** X17. An accepted number n in a numeric field replaces that channel
    alone: r, g and b take n / 255 and a takes n / 100 in the RGBA colour,
    which the constructor builds with the other three channels of the
    current colour, and the HSV colour is derived from the result; h takes
    n and s and v take n / 100 in the HSV colour, the other two staying,
    and the RGBA colour is derived from the result with the current alpha.
    The snapshot and the text value follow, and one change is emitted. *)
Theorem numeric_field_replaces_one_channel
    {lib : Collaborators} st c inputVal rgb hsv :
  currentRGBColor st = Some rgb -> currentHSVColor st = Some hsv ->
  isNullOrWhiteSpace inputVal = false ->
  legal c (JS.parseInt inputVal) = true ->
  let n := JS.parseInt inputVal in
  let '(ColorRGBA64.mk r g b a) := rgb in
  let '(ColorHSV.mk h s v) := hsv in
  let edited :=
    match c with
    | chH => ColorHSV.mk n s v
    | chS => ColorHSV.mk h (n / 100) v
    | chV => ColorHSV.mk h s (n / 100)
    | _ => hsv
    end in
  let rgb' :=
    match c with
    | chR => ColorRGBA64.new (n / 255) g b (Some a)
    | chG => ColorRGBA64.new r (n / 255) b (Some a)
    | chB => ColorRGBA64.new r g (n / 255) (Some a)
    | chA => ColorRGBA64.new r g b (Some (n / 100))
    | _ => hsvToRGB edited a
    end in
  let hsv' :=
    match c with
    | chR | chG | chB | chA => rgbToHSV rgb'
    | _ => edited
    end in
  exists st',
    handleTextValueInput (param_of c) inputVal st = (Some tt, st')
    /\ currentRGBColor st' = Some rgb'
    /\ currentHSVColor st' = Some hsv'
    /\ uiValues st' = ColorPickerUI_new rgb' hsv'
    /\ value st' = serialisation rgb'
    /\ emitted st' = (emitted st ++ ["change"])%list.
Proof.
  intros Hrgb Hhsv Hblank Hlegal n.
  rewrite <- acceptsValue_legal in Hlegal.
  destruct rgb as [r g b a], hsv as [h s v].
  destruct c; cbv zeta; eexists;
    (split;
     [ match goal with
       | |- handleTextValueInput ?p _ _ = _ =>
           first
             [ exact (numeric_rgba_run st p inputVal _
                        Hblank eq_refl Hlegal Hrgb)
             | etransitivity;
               [ exact (numeric_hsv_run st p inputVal _
                          Hblank eq_refl Hlegal Hhsv)
               | exact (updateHSV_run st _ _ _ _ Hrgb) ] ]
       end
     | repeat split ]).
Qed.

Lemma numeric_field_replaces_one_channel_witness :
  exists st',
    handleTextValueInput (lib := Fixture.lib) "g" "51" Fixture.attached
    = (Some tt, st')
    /\ currentRGBColor st' = Some (ColorRGBA64.mk 1 (51 / 255) 0 1)
    /\ currentHSVColor st'
       = Some (Fixture.rgbToHSV (ColorRGBA64.mk 1 (51 / 255) 0 1))
    /\ uiValues st'
       = ColorPickerUI_new (lib := Fixture.lib)
           (ColorRGBA64.mk 1 (51 / 255) 0 1)
           (Fixture.rgbToHSV (ColorRGBA64.mk 1 (51 / 255) 0 1))
    /\ value st' = "#ff3300"
    /\ emitted st' = ["change"].
Proof.
  exact (numeric_field_replaces_one_channel (lib := Fixture.lib)
           Fixture.attached chG "51" Fixture.red (ColorHSV.mk 0 1 1)
           eq_refl eq_refl eq_refl eq_refl).
Defined.

(** X18. Entering an accepted number a second time changes no colour: the
    second edit returns and leaves the RGBA colour, the HSV colour, the
    snapshot and the text value as the first left them.  The conversion
    from HSV is taken to return the alpha it is given. *)
Theorem numeric_field_edit_is_idempotent
    {lib : Collaborators} st c inputVal :
  (forall hsv alpha, ColorRGBA64.a (hsvToRGB hsv alpha) = alpha) ->
  inStep st ->
  isNullOrWhiteSpace inputVal = false ->
  legal c (JS.parseInt inputVal) = true ->
  exists st1 st2,
    handleTextValueInput (param_of c) inputVal st = (Some tt, st1)
    /\ handleTextValueInput (param_of c) inputVal st1 = (Some tt, st2)
    /\ currentRGBColor st2 = currentRGBColor st1
    /\ currentHSVColor st2 = currentHSVColor st1
    /\ uiValues st2 = uiValues st1
    /\ value st2 = value st1.
Proof.
  intros Halpha (rgb & hsv & Hrgb & Hhsv & _) Hblank Hlegal.
  rewrite <- acceptsValue_legal in Hlegal.
  destruct c; do 2 eexists;
    (split; [| split];
     [ match goal with
       | |- handleTextValueInput ?p _ _ = _ =>
           first
             [ exact (numeric_rgba_run st p inputVal _
                        Hblank eq_refl Hlegal Hrgb)
             | etransitivity;
               [ exact (numeric_hsv_run st p inputVal _
                          Hblank eq_refl Hlegal Hhsv)
               | exact (updateHSV_run st _ _ _ _ Hrgb) ] ]
       end
     | match goal with
       | |- handleTextValueInput ?p _ _ = _ =>
           first
             [ refine (numeric_rgba_run _ p inputVal _
                         Hblank eq_refl Hlegal _); reflexivity
             | etransitivity;
               [ refine (numeric_hsv_run _ p inputVal _
                           Hblank eq_refl Hlegal _); reflexivity
               | refine (updateHSV_run _ _ _ _ _ _); reflexivity ] ]
       end
     | cbn [currentRGBColor currentHSVColor uiValues value committed
            snapshotted with_emitted with_value with_uiValues
            with_currentRGBColor with_currentHSVColor];
       rewrite ?Halpha, ?withChannel_twice; repeat split ]).
Qed.

Lemma numeric_field_edit_is_idempotent_witness :
  exists st1 st2,
    handleTextValueInput (lib := Fixture.lib) "s" "40" Fixture.attached
    = (Some tt, st1)
    /\ handleTextValueInput (lib := Fixture.lib) "s" "40" st1 = (Some tt, st2)
    /\ currentRGBColor st2 = currentRGBColor st1
    /\ currentHSVColor st2 = currentHSVColor st1
    /\ uiValues st2 = uiValues st1
    /\ value st2 = value st1.
Proof.
  refine (numeric_field_edit_is_idempotent (lib := Fixture.lib)
            Fixture.attached chS "40" (fun _ _ => eq_refl) _
            eq_refl eq_refl).
  exists Fixture.red, (ColorHSV.mk 0 1 1). repeat split.
Defined.

(** *** Typing, then attaching again *)

(** X19. After a free-text edit with a string that is not blank, that the
    browser takes for a colour and that the parser reads, attaching the
    element again returns and stores the same colours and snapshot: they
    are restored from the text as typed. *)
Theorem attach_after_typing_restores_the_colour
    {lib : Collaborators} st text c :
  isNullOrWhiteSpace text = false ->
  styleReadBack text <> "" -> parseColor text = Some c ->
  exists st1 st2,
    handleTextInput text st = (Some tt, st1)
    /\ connectedCallback st1 = (Some tt, st2)
    /\ value st2 = text
    /\ currentRGBColor st2 = currentRGBColor st1
    /\ currentHSVColor st2 = currentHSVColor st1
    /\ uiValues st2 = uiValues st1
    /\ emitted st2 = emitted st1.
Proof.
  intros Hblank Haccepted Hparsed. do 2 eexists. split; [| split].
  - exact (handleTextInput_parsed st text c Haccepted Hparsed).
  - apply (connectedCallback_parsed _ c); simpl; assumption.
  - unfold attachedTo. simpl. destruct (autofocus st); repeat split.
Qed.

Lemma attach_after_typing_witness :
  exists st1 st2,
    handleTextInput (lib := Fixture.lib) "blue" Fixture.attached
    = (Some tt, st1)
    /\ connectedCallback (lib := Fixture.lib) st1 = (Some tt, st2)
    /\ value st2 = "blue"
    /\ currentRGBColor st2 = currentRGBColor st1
    /\ currentHSVColor st2 = currentHSVColor st1
    /\ uiValues st2 = uiValues st1
    /\ emitted st2 = emitted st1.
Proof.
  refine (attach_after_typing_restores_the_colour (lib := Fixture.lib)
            Fixture.attached "blue" Fixture.blue eq_refl _ eq_refl).
  vm_compute. discriminate.
Defined.

(** *** What the handlers leave alone *)

Lemma outcome_keeps_open_and_drag
    {lib : Collaborators} st r s1 :
  outcome st (r, s1) ->
  isOpen s1 = isOpen st
  /\ isMouseActive s1 = isMouseActive st
  /\ currentMouseTarget s1 = currentMouseTarget st
  /\ currentMouseParam s1 = currentMouseParam st.
Proof.
  intros [Heq | [(rgb & hsv & _ & Heq) | [[Heq _] | [(hsv & _ & Heq)
         | (rgb & _ & _ & Heq)]]]];
    injection Heq as _ ->; now repeat split.
Qed.

(** X20. Only focus, blur and attaching move [isOpen]: focus opens the colour
    UI, blur and attaching close it, and every other event, returning or
    throwing, leaves it as it is.  Only the mouse-down and the mouse-up
    touch the drag state: after any other event the target, the zone and
    [isMouseActive] are as before. *)
Theorem open_flag_and_drag_state_have_their_own_events
    {lib : Collaborators} ev st :
  let st' := snd (handle ev st) in
  isOpen st'
  = match ev with
    | Focus => true
    | Blur | Attach => false
    | _ => isOpen st
    end
  /\ match ev with
     | Edit (MouseDown _ _ _ _) | Edit (MouseUp _ _) => True
     | _ =>
         isMouseActive st' = isMouseActive st
         /\ currentMouseTarget st' = currentMouseTarget st
         /\ currentMouseParam st' = currentMouseParam st
     end.
Proof.
  destruct ev as [| | | text | | e]; cbn [handle].
  - destruct (isNullOrWhiteSpace (value st)) eqn:Hblank;
      [| destruct (parseColor (value st)) as [c |] eqn:Hparsed].
    + rewrite (connectedCallback_blank st Hblank). unfold attachedTo. simpl.
      destruct (autofocus st); repeat split.
    + rewrite (connectedCallback_parsed st c Hblank Hparsed).
      unfold attachedTo. simpl. destruct (autofocus st); repeat split.
    + rewrite (connectedCallback_unparsed st Hblank Hparsed). repeat split.
  - repeat split.
  - repeat split.
  - destruct (String.eqb_spec (styleReadBack text) "")
      as [Hrefused | Haccepted];
      [| destruct (parseColor text) as [c |] eqn:Hparsed].
    + rewrite (handleTextInput_refused st text Hrefused). repeat split.
    + rewrite (handleTextInput_parsed st text c Haccepted Hparsed).
      repeat split.
    + rewrite (handleTextInput_unparsed st text Haccepted Hparsed).
      repeat split.
  - repeat split.
  - destruct (perform_outcome e st)
      as (st0 & s1 & Hbefore & _ & Hout & Hafter).
    destruct Hbefore as (_ & _ & Hopen0 & _).
    destruct Hafter as (_ & _ & Hopen1 & _).
    pose proof (outcome_keeps_open_and_drag st0 _ s1 Hout)
      as (Hopen & _).
    cbv zeta. split; [congruence |].
    destruct e as [param inputVal | | pageX pageY |]; try exact I.
    + pose proof (handleTextValueInput_outcome st param inputVal) as Hnum.
      rewrite (surjective_pairing (handleTextValueInput param inputVal st))
        in Hnum.
      now apply outcome_keeps_open_and_drag in Hnum.
    + pose proof (updateFromMouseEvent_outcome st pageX pageY) as Hmove.
      rewrite (surjective_pairing (updateFromMouseEvent pageX pageY st))
        in Hmove.
      now apply outcome_keeps_open_and_drag in Hmove.
Qed.

(** X21. For each of the seven channels and every string, the numeric
    field edit returns with the element unchanged exactly when the string
    is blank, or [parseInt] finds no number at its beginning, or the
    number [parseInt] reads is outside the channel's range: [0, 255] for
    r, g and b, [0, 100] for a, s and v, [0, 359] for h.  In particular
    "359" is accepted for h, and stored as the hue with one change
    emitted, and "360" is rejected. *)
Theorem numeric_field_is_noop_iff_rejected
    {lib : Collaborators} st c inputVal :
  (handleTextValueInput (param_of c) inputVal st = (Some tt, st)
   <-> isNullOrWhiteSpace inputVal = true
       \/ JS.isNaN (JS.parseInt inputVal) = true
       \/ legal c (JS.parseInt inputVal) = false)
  /\ (forall rgb hsv,
        currentRGBColor st = Some rgb -> currentHSVColor st = Some hsv ->
        exists st',
          handleTextValueInput (param_of chH) "359" st = (Some tt, st')
          /\ currentHSVColor st'
             = Some (ColorHSV.mk 359 (ColorHSV.s hsv) (ColorHSV.v hsv))
          /\ emitted st' = (emitted st ++ ["change"])%list)
  /\ handleTextValueInput (param_of chH) "360" st = (Some tt, st).
Proof.
  split; [split | split].
  - intros Hrun.
    destruct (isNullOrWhiteSpace inputVal) eqn:Hblank; [now left |].
    destruct (legal c (JS.parseInt inputVal)) eqn:Hlegal; [| now right; right].
    exfalso. rewrite <- acceptsValue_legal in Hlegal.
    destruct (numeric_accepted_inv st st (param_of c) inputVal
                Hblank Hlegal Hrun) as (rgb & hsv & Hst).
    symmetry in Hst. now apply committed_differs in Hst.
  - intros [Hblank | [Hnan | Hlegal]]; apply numeric_rejected.
    + now left.
    + right. rewrite acceptsValue_legal. now apply NaN_not_legal.
    + right. now rewrite acceptsValue_legal.
  - intros rgb hsv Hrgb Hhsv. eexists. split.
    + unfold handleTextValueInput.
      change (JS.parseInt "359") with 359. cbv zeta. simpl param_of.
      change (isNullOrWhiteSpace "359") with false.
      destruct st; simpl in *; subst; reflexivity.
    + split; reflexivity.
  - apply numeric_rejected. right. reflexivity.
Qed.

Lemma numeric_field_witness :
  handleTextValueInput (lib := Fixture.lib) "r" "256" Fixture.attached
  = (Some tt, Fixture.attached)
  /\ handleTextValueInput (lib := Fixture.lib) "r" "-1" Fixture.attached
     = (Some tt, Fixture.attached)
  /\ (exists st',
        handleTextValueInput (lib := Fixture.lib) "h" "359" Fixture.attached
        = (Some tt, st')
        /\ currentHSVColor st' = Some (ColorHSV.mk 359 1 1)
        /\ emitted st' = ["change"]).
Proof.
  split; [| split].
  - apply (proj1 (numeric_field_is_noop_iff_rejected
                    (lib := Fixture.lib) Fixture.attached chR "256")).
    right. right. reflexivity.
  - apply (proj1 (numeric_field_is_noop_iff_rejected
                    (lib := Fixture.lib) Fixture.attached chR "-1")).
    right. right. reflexivity.
  - exact (proj1 (proj2 (numeric_field_is_noop_iff_rejected
                           (lib := Fixture.lib) Fixture.attached chH ""))
             Fixture.red (ColorHSV.mk 0 1 1) eq_refl eq_refl).
Defined.
